(** * Rollup deployment pipeline: a shallow embedding

    The development follows the TypeScript sources

    - [src/modules/chain/deployChain.ts]      (deployChain with individually
                                               named key/address variables),
    - the role-list variant of the same file  (deployChain over a
                                               [NodeAccount] list),
    - [src/modules/chain/prepareNodeConfig.ts] (generateNodeConfiguration).

    Everything the code awaits or imports from viem, the chain SDK, inquirer,
    the file system and the console is a collaborator.  Collaborators are the
    fields of one interface, [Collaborators]; the orchestration code is
    written once against that interface, in an error-and-state monad that
    threads the external world and records every collaborator call. *)

From stdpp Require Import base strings list gmap pretty.
From Stdlib Require Import Ascii ZArith Lia.

Local Open Scope string_scope.
Local Open Scope list_scope.
Local Open Scope Z_scope.

(** ** Plain data *)

Definition Hex := string.
Definition Address := string.
Definition Hash := string.

(** A JavaScript exception, identified by its rendering. *)
Definition Error := string.

(** The result of a call that may throw. *)
Inductive Result (A : Type) : Type :=
| Ok (a : A)
| Thrown (e : Error).
Arguments Ok {A} a.
Arguments Thrown {A} e.

(** What a settled promise hands back to the caller, if anything. *)
Definition returned {A} (r : Result A) : option A :=
  match r with Ok a => Some a | Thrown _ => None end.

(** *** viem: parseEther

    [parseEther s] reads a decimal string as an amount of 10^18 base units.
    Only unsigned literals with at most 18 fractional digits are covered
    (viem rounds longer fractions); any other literal is rejected. *)

Definition digit (c : ascii) : option Z :=
  let n := Z.of_nat (nat_of_ascii c) in
  if (48 <=? n) && (n <=? 57) then Some (n - 48) else None.

Fixpoint digits (acc : Z) (s : string) : option Z :=
  match s with
  | EmptyString => Some acc
  | String c s' =>
      match digit c with
      | Some d => digits (acc * 10 + d) s'
      | None => None
      end
  end.

Fixpoint splitDot (s : string) : string * option string :=
  match s with
  | EmptyString => (EmptyString, None)
  | String c s' =>
      if Ascii.eqb c "."%char then (EmptyString, Some s')
      else let '(i, f) := splitDot s' in (String c i, f)
  end.

Definition parseUnits (s : string) (decimals : nat) : option Z :=
  let '(i, f) := splitDot s in
  let f := default EmptyString f in
  if (decimals <? String.length f)%nat then None
  else
    match digits 0 i, digits 0 f with
    | Some iv, Some fv =>
        Some (iv * 10 ^ Z.of_nat decimals
              + fv * 10 ^ Z.of_nat (decimals - String.length f))
    | _, _ => None
    end.

Definition parseEther (s : string) : option Z := parseUnits s 18.

(** A module-level constant initialised from a literal. *)
Definition ether (s : string) : Z := default 0 (parseEther s).

(** *** viem / chain SDK records, reduced to the fields the code touches *)

Record PrivateKeyAccount := { acc_address : Address }.

Record Chain := {
  chain_id : Z;
  chain_rpcUrls_default_http : list string;
}.

Record RuntimeAccount := {
  deployer : PrivateKeyAccount;
  parentChainPublicClient_chain : Chain;
}.

Record ChainConfigArbitrum := {
  InitialChainOwner : Address;
  DataAvailabilityCommittee : bool;
}.

Record PrepareChainConfigParams := {
  pcc_chainId : Z;
  pcc_arbitrum : ChainConfigArbitrum;
}.

Record ChainConfig := {
  chainId : Z;
  arbitrum : ChainConfigArbitrum;
}.

(** Argument of createRollupPrepareDeploymentParamsConfig. *)
Record DeploymentParamsInput := {
  dp_chainId : Z;
  dp_owner : Address;
  dp_baseStake : Z;
  dp_chainConfig : ChainConfig;
}.

(** The factory's config tuple; the chain configuration travels as a JSON
    document. *)
Record RollupConfig := {
  cfg_chainId : Z;
  cfg_owner : Address;
  cfg_baseStake : Z;
  cfg_chainConfig : string;
  cfg_stakeToken : Address;
}.

Record CreateRollupParams := {
  config : RollupConfig;
  batchPosters : list Address;
  validators : list Address;
}.

Record CreateRollupResults := { transaction_hash : Hash }.

Record Transaction := {
  tx_hash : Hash;
  tx_input : Hex;
}.

Record Log := {
  log_address : Address;
  log_topics : list Hex;
  log_data : Hex;
}.

Record TransactionReceipt := {
  rc_transactionHash : Hash;
  rc_logs : list Log;
}.

(** Contract role ↦ address. *)
Abbreviation CoreContracts := (gmap string Address).

Record PrepareNodeConfigParams := {
  chainName : string;
  p_chainConfig : ChainConfig;
  p_coreContracts : CoreContracts;
  batchPosterPrivateKey : option Hex;
  validatorPrivateKey : option Hex;
  stakeToken : Address;
  parentChainId : Z;
  parentChainRpcUrl : option string;
}.

Record NodeConfig := {
  nc_chainName : string;
  nc_chainConfig : ChainConfig;
  nc_coreContracts : CoreContracts;
  nc_batchPosterPrivateKey : Hex;
  nc_validatorPrivateKey : Hex;
  nc_parentChainId : Z;
  nc_parentChainRpcUrl : string;
}.

Record GenerateNodeConfigurationResult := {
  nodeConfig : NodeConfig;
  chainConfig : ChainConfig;
}.

Record Answers := {
  ans_chainId : Z;
  ans_confirm : bool;
}.

(** ** The record of a run *)

Inductive LogLine :=
| log_info (m : string)
| log_success (m : string)
| log_warn (m : string)
| log_error (m : string)
| log_step (step total : nat) (m : string)
| log_section (m : string)
| log_raw (m : string)
| log_newline
| console_error (m : string).

Inductive Event :=
| EvLog (l : LogLine)
| EvGetBalance (a : Address) (r : Result Z)
| EvGenerateChainId (z : Z)
| EvPrompt (suggested : Z) (r : Result Answers)
| EvGeneratePrivateKey (r : Result Hex)
| EvSendTransaction (sender to : Address) (value : Z) (r : Result Hash)
| EvCreateRollup (p : CreateRollupParams) (account : Address)
                 (r : Result CreateRollupResults)
| EvGetTransaction (h : Hash) (r : Result Transaction)
| EvGetTransactionReceipt (h : Hash) (r : Result TransactionReceipt)
| EvWriteFile (path content : string) (r : Result unit).

(** *** Projections of a trace *)

(** Transfers attempted, in order: recipient, value, outcome. *)
Definition transferOf (e : Event) : option (Address * Z * Result Hash) :=
  match e with
  | EvSendTransaction _ to v r => Some (to, v, r)
  | _ => None
  end.
Definition transfers (tr : list Event) := omap transferOf tr.

(** Rollup-creation submissions, in order. *)
Definition deploymentOf (e : Event) : option CreateRollupParams :=
  match e with
  | EvCreateRollup p _ _ => Some p
  | _ => None
  end.
Definition deployments (tr : list Event) := omap deploymentOf tr.

(** Files written, in order. *)
Definition writeOf (e : Event) : option (string * string) :=
  match e with
  | EvWriteFile path content _ => Some (path, content)
  | _ => None
  end.
Definition writes (tr : list Event) := omap writeOf tr.

(** Private keys drawn, in order. *)
Definition keyOf (e : Event) : option Hex :=
  match e with
  | EvGeneratePrivateKey (Ok k) => Some k
  | _ => None
  end.
Definition generatedKeys (tr : list Event) := omap keyOf tr.

(** Transactions looked up again, in order. *)
Definition fetchOf (e : Event) : option Hash :=
  match e with
  | EvGetTransaction h _ => Some h
  | _ => None
  end.
Definition fetches (tr : list Event) := omap fetchOf tr.

(** Did the collaborator call recorded by [e] succeed? *)
Definition succeeded (e : Event) : bool :=
  match e with
  | EvGetBalance _ (Thrown _)
  | EvPrompt _ (Thrown _)
  | EvGeneratePrivateKey (Thrown _)
  | EvSendTransaction _ _ _ (Thrown _)
  | EvCreateRollup _ _ (Thrown _)
  | EvGetTransaction _ (Thrown _)
  | EvGetTransactionReceipt _ (Thrown _)
  | EvWriteFile _ _ (Thrown _) => false
  | _ => true
  end.

(** ** The monad of the orchestration code *)

Record World (Env : Type) := mkWorld {
  env : Env;
  trace : list Event;
}.
Arguments mkWorld {Env} env trace.
Arguments env {Env} w.
Arguments trace {Env} w.

Definition M (Env A : Type) : Type := World Env → Result A * World Env.

Definition ret {Env A} (a : A) : M Env A := λ w, (Ok a, w).

Definition bind {Env A B} (m : M Env A) (f : A → M Env B) : M Env B :=
  λ w,
    match m w with
    | (Ok a, w') => f a w'
    | (Thrown e, w') => (Thrown e, w')
    end.

Declare Scope prog_scope.
Delimit Scope prog_scope with prog.
Bind Scope prog_scope with M.
Notation "x ← y ; z" := (bind y (λ x : _, z))
  (at level 20, y at level 100, z at level 200, only parsing) : prog_scope.
Notation "x ;; z" := (bind x (λ _, z))
  (at level 100, z at level 200, only parsing, right associativity)
  : prog_scope.
Local Open Scope prog_scope.

Definition throw {Env A} (e : Error) : M Env A := λ w, (Thrown e, w).

(** try { m } catch (error) { h error } *)
Definition tryCatch {Env A} (m : M Env A) (h : Error → M Env A) : M Env A :=
  λ w,
    match m w with
    | (Ok a, w') => (Ok a, w')
    | (Thrown e, w') => h e w'
    end.

(** A synchronous library call that may throw. *)
Definition lift {Env A} (r : Result A) : M Env A := λ w, (r, w).

(** An awaited collaborator call: the world moves on and the call is
    recorded together with its outcome. *)
Definition call {Env A} (f : Env → Result A * Env) (ev : Result A → Event)
  : M Env A :=
  λ w,
    let '(r, e') := f (env w) in
    (r, mkWorld e' (trace w ++ [ev r])).

(** The ambient process state ([process.env]), read in place. *)
Definition ambient {Env} : M Env Env := λ w, (Ok (env w), w).

Definition emit {Env} (e : Event) : M Env unit :=
  λ w, (Ok (), mkWorld (env w) (trace w ++ [e])).

(** [x!] on a [let] that is declared without initialiser: the orchestration
    reads such a variable only in a later switch case than the one that
    assigns it, so the failing branch is never taken. *)
Definition assigned {Env A} (x : option A) : M Env A :=
  match x with
  | Some a => ret a
  | None => throw "TypeError: variable is used before being assigned"
  end.

(** array.map with an effectful callback, left to right. *)
Fixpoint mapM {Env A B} (f : A → M Env B) (l : list A) : M Env (list B) :=
  match l with
  | [] => ret []
  | a :: l' => b ← f a; bs ← mapM f l'; ret (b :: bs)
  end.

(** for (const x of l) { await f(x) } *)
Fixpoint forOf {Env A} (l : list A) (f : A → M Env unit) : M Env unit :=
  match l with
  | [] => ret ()
  | a :: l' => f a;; forOf l' f
  end.

(** for (let i = start; i < start + n; i++) { l = body(i, l) } *)
Fixpoint forLoop {Env L} (n : nat) (start : nat) (body : nat → L → M Env L)
    (l : L) : M Env L :=
  match n with
  | O => ret l
  | S n' => l' ← body start l; forLoop n' (S start) body l'
  end.

(** ** Collaborators *)

Class Collaborators (Env : Type) := {
  (* viem/accounts *)
  generatePrivateKey : Env → Result Hex * Env;
  privateKeyToAccount : Hex → Result PrivateKeyAccount;
  (* @arbitrum/chain-sdk/utils *)
  sanitizePrivateKey : string → Hex;
  generateChainId : Env → Z * Env;
  (* base-chain client (viem public and wallet clients) *)
  getBalance : Env → Address → Result Z * Env;
  sendTransaction : Env → PrivateKeyAccount → Address → Z → Result Hash * Env;
  getTransaction : Env → Hash → Result Transaction * Env;
  getTransactionReceipt : Env → Hash → Result TransactionReceipt * Env;
  (* @arbitrum/chain-sdk *)
  prepareChainConfig : PrepareChainConfigParams → ChainConfig;
  createRollupPrepareDeploymentParamsConfig :
    DeploymentParamsInput → Result RollupConfig;
  createRollup :
    Env → CreateRollupParams → PrivateKeyAccount →
    Result CreateRollupResults * Env;
  (* createRollupPrepareTransaction(tx).getInputs() *)
  getInputs : Transaction → Result (list CreateRollupParams);
  (* createRollupPrepareTransactionReceipt(receipt).getCoreContracts() *)
  getCoreContracts : TransactionReceipt → Result CoreContracts;
  prepareNodeConfig : PrepareNodeConfigParams → Result NodeConfig;
  (* JavaScript runtime *)
  JSON_parse : string → Result ChainConfig;
  JSON_stringify : NodeConfig → string;
  processEnv : Env → string → option string;
  writeFile : Env → string → string → Result unit * Env;
  (* inquirer: the operator answers the two questions *)
  prompt : Env → Z → Result Answers * Env;
}.

(** ** src/utils/logger.ts *)

Module logger.
Section Logger.
  Context {Env : Type}.
Definition info (m : string) : M Env unit := emit (EvLog (log_info m)).
Definition success (m : string) : M Env unit := emit (EvLog (log_success m)).
Definition warn (m : string) : M Env unit := emit (EvLog (log_warn m)).
Definition error (m : string) : M Env unit := emit (EvLog (log_error m)).
Definition step (i total : nat) (m : string) : M Env unit :=
    emit (EvLog (log_step i total m)).
Definition section (m : string) : M Env unit := emit (EvLog (log_section m)).
Definition raw (m : string) : M Env unit := emit (EvLog (log_raw m)).
Definition newline : M Env unit := emit (EvLog log_newline).
End Logger.
End logger.

(** ** src/modules/chain/prepareNodeConfig.ts *)

Module PrepareNodeConfig.
Section PrepareNodeConfig.
  Context {Env : Type} `{!Collaborators Env}.

Definition getRpcUrl (chain : Chain) : option string :=
    head (chain_rpcUrls_default_http chain).

  (** The object literal [nodeConfigParameters]; the two keys are read from
      the process environment. *)
Definition nodeConfigParameters (e : Env) (chainConfig : ChainConfig)
      (coreContracts : CoreContracts) (txConfig : RollupConfig)
      (parentChain : Chain) : PrepareNodeConfigParams :=
    {| chainName := "My Orbit Chain";
       p_chainConfig := chainConfig;
       p_coreContracts := coreContracts;
       batchPosterPrivateKey := processEnv e "BATCH_POSTER_PRIVATE_KEY";
       validatorPrivateKey := processEnv e "VALIDATOR_PRIVATE_KEY";
       stakeToken := cfg_stakeToken txConfig;
       parentChainId := chain_id parentChain;
       parentChainRpcUrl := getRpcUrl parentChain |}.

  (** [a[0].config] *)
Definition firstConfig (inputs : list CreateRollupParams)
    : M Env RollupConfig :=
    match inputs with
    | p :: _ => ret (config p)
    | [] => throw "TypeError: Cannot read properties of undefined (reading 'config')"
    end.

Definition generateNodeConfiguration (txHash : Hash) (parentChain : Chain)
    : M Env GenerateNodeConfigurationResult :=
    tx ← call (λ e, getTransaction e txHash) (EvGetTransaction txHash);
    txReceipt ← call (λ e, getTransactionReceipt e txHash)
                     (EvGetTransactionReceipt txHash);
    inputs ← lift (getInputs tx);
    txConfig ← firstConfig inputs;
    chainConfig ← lift (JSON_parse (cfg_chainConfig txConfig));
    coreContracts ← lift (getCoreContracts txReceipt);
    e ← ambient;
    nodeConfig ← lift (prepareNodeConfig
                         (nodeConfigParameters e chainConfig coreContracts
                            txConfig parentChain));
    ret {| nodeConfig := nodeConfig; chainConfig := chainConfig |}.
End PrepareNodeConfig.
End PrepareNodeConfig.

(** ** Code shared verbatim by both variants of deployChain.ts *)

Definition BASE_STAKE : Z := ether "0.00001".
Definition TEST_TOKENS_AMOUNT : Z := ether "0.001".
(* gas needs for 2 validators + 1 batch poster + 1 deployer *)
Definition TOKEN_NEEDS_FOR_DEPLOY : Z := BASE_STAKE + TEST_TOKENS_AMOUNT * 4.

(** The template literal of the closing log line. *)
Definition chainIdLine (c : ChainConfig) : string :=
  "  Chain ID:       " +:+ pretty (chainId c).
Arguments chainIdLine : simpl never.

Definition dq : string := String (ascii_of_nat 34) EmptyString.

Definition steps : list string :=
  [ "Generating the validator keys...";
    "Sending test tokens to the validator accounts...";
    "Deploying the rollup contracts...";
    "Generating node configuration file..." ].

Section Shared.
  Context {Env : Type} `{!Collaborators Env}.

Definition sendTestTokens (sender : PrivateKeyAccount) (toAddress : Address)
    : M Env Hash :=
    let amount := TEST_TOKENS_AMOUNT in
    call (λ e, sendTransaction e sender toAddress amount)
         (EvSendTransaction (acc_address sender) toAddress amount).

Definition deployRollupContracts (deployer : PrivateKeyAccount)
      (validatorAddresses : list Address) (batchPosterAddress : Address)
      (chainId : Z) : M Env CreateRollupResults :=
    createRollupConfig ←
      lift (createRollupPrepareDeploymentParamsConfig
              {| dp_chainId := chainId;
                 dp_owner := acc_address deployer;
                 dp_baseStake := BASE_STAKE;
                 dp_chainConfig :=
                   prepareChainConfig
                     {| pcc_chainId := chainId;
                        pcc_arbitrum :=
                          {| InitialChainOwner := acc_address deployer;
                             DataAvailabilityCommittee := true |} |} |});
    let params :=
      {| config := createRollupConfig;
         batchPosters := [batchPosterAddress];
         validators := validatorAddresses |} in
    tryCatch
      (call (λ e, createRollup e params deployer)
            (EvCreateRollup params (acc_address deployer)))
      (λ error,
         emit (EvLog (console_error
                        ("Rollup creation failed with error: " +:+ error)));;
         throw error).

  (** The node-configuration step, identical in both variants. *)
Definition writeNodeConfig (r : GenerateNodeConfigurationResult)
    : M Env unit :=
    call (λ e, writeFile e "node-config.json" (JSON_stringify (nodeConfig r)))
         (EvWriteFile "node-config.json" (JSON_stringify (nodeConfig r)));;
    logger.success ("Node config written to " +:+ dq +:+ "node-config.json" +:+ dq).
End Shared.

(** A call that cannot throw (generateChainId). *)
Definition draw {Env A} (f : Env → A * Env) (ev : A → Event) : M Env A :=
  λ w,
    let '(a, e') := f (env w) in
    (Ok a, mkWorld e' (trace w ++ [ev a])).

(** ** src/modules/chain/deployChain.ts: individually named variables *)

Module DeployChain.

  (** The [let] declarations in front of the step loop. *)
Record Locals := {
    validatorKeys1 : option Hex;
    validatorKeys2 : option Hex;
    batchPosterKeys : option Hex;
    validator1Address : option Address;
    validator2Address : option Address;
    batchPosterAddress : option Address;
    deployRollupHash : option Hash;
    nodeConfigResult : option GenerateNodeConfigurationResult;
  }.

Definition unassigned : Locals :=
    {| validatorKeys1 := None; validatorKeys2 := None; batchPosterKeys := None;
       validator1Address := None; validator2Address := None;
       batchPosterAddress := None;
       deployRollupHash := None; nodeConfigResult := None |}.

Section DeployChain.
  Context {Env : Type} `{!Collaborators Env}.
  Variable runtimeAccount : RuntimeAccount.

  (** switch (i) { case 0: ... case 3: ... } *)
Definition switch (parentChain : Chain) (chainId : Z) (i : nat) (l : Locals)
    : M Env Locals :=
    let deployer := deployer runtimeAccount in
    match i with
    | 0%nat =>
        k1 ← call generatePrivateKey EvGeneratePrivateKey;
        k2 ← call generatePrivateKey EvGeneratePrivateKey;
        k3 ← call generatePrivateKey EvGeneratePrivateKey;
        a1 ← lift (privateKeyToAccount (sanitizePrivateKey k1));
        a2 ← lift (privateKeyToAccount (sanitizePrivateKey k2));
        a3 ← lift (privateKeyToAccount (sanitizePrivateKey k3));
        ret {| validatorKeys1 := Some k1;
                validatorKeys2 := Some k2;
                batchPosterKeys := Some k3;
                validator1Address := Some (acc_address a1);
                validator2Address := Some (acc_address a2);
                batchPosterAddress := Some (acc_address a3);
                deployRollupHash := deployRollupHash l;
                nodeConfigResult := nodeConfigResult l |}
    | 1%nat =>
        a1 ← assigned (validator1Address l);
        sendTestTokens deployer a1;;
        a2 ← assigned (validator2Address l);
        sendTestTokens deployer a2;;
        a3 ← assigned (batchPosterAddress l);
        sendTestTokens deployer a3;;
        ret l
    | 2%nat =>
        a1 ← assigned (validator1Address l);
        a2 ← assigned (validator2Address l);
        a3 ← assigned (batchPosterAddress l);
        deployRollupResult ← deployRollupContracts deployer [a1; a2] a3 chainId;
        ret {| validatorKeys1 := validatorKeys1 l;
                validatorKeys2 := validatorKeys2 l;
                batchPosterKeys := batchPosterKeys l;
                validator1Address := validator1Address l;
                validator2Address := validator2Address l;
                batchPosterAddress := batchPosterAddress l;
                deployRollupHash := Some (transaction_hash deployRollupResult);
                nodeConfigResult := nodeConfigResult l |}
    | 3%nat =>
        h ← assigned (deployRollupHash l);
        r ← PrepareNodeConfig.generateNodeConfiguration h parentChain;
        writeNodeConfig r;;
        ret {| validatorKeys1 := validatorKeys1 l;
                validatorKeys2 := validatorKeys2 l;
                batchPosterKeys := batchPosterKeys l;
                validator1Address := validator1Address l;
                validator2Address := validator2Address l;
                batchPosterAddress := batchPosterAddress l;
                deployRollupHash := deployRollupHash l;
                nodeConfigResult := Some r |}
    | _ => ret l
    end.

  (** The body of [for (let i = 0; i < steps.length; i++)]. *)
Definition stepBody (parentChain : Chain) (chainId : Z) (i : nat)
      (l : Locals) : M Env Locals :=
    logger.step (i + 1) (length steps) (default "" (steps !! i));;
    switch parentChain chainId i l.

Definition runSteps (parentChain : Chain) (chainId : Z) : M Env Locals :=
    forLoop (length steps) 0 (stepBody parentChain chainId) unassigned.

Definition deployChain (parentChain : Chain) : M Env (option ChainConfig) :=
    logger.section "Deploy New Chain";;
    let deployer := deployer runtimeAccount in
    balance ← call (λ e, getBalance e (acc_address deployer))
                   (EvGetBalance (acc_address deployer));
    if balance <? TOKEN_NEEDS_FOR_DEPLOY then
      logger.error
        "Insufficient balance to deploy chain. Please top up the account.";;
      ret None
    else
      randomChainId ← draw generateChainId EvGenerateChainId;
      answers ← call (λ e, prompt e randomChainId) (EvPrompt randomChainId);
      if negb (ans_confirm answers) then
        logger.warn "Chain deployment cancelled.";;
        ret None
      else
        let chainId' := ans_chainId answers in
        logger.newline;;
        logger.info "Starting chain deployment...";;
        l ← runSteps parentChain chainId';
        logger.newline;;
        logger.success "Chain deployed successfully!";;
        logger.newline;;
        r ← assigned (nodeConfigResult l);
        let chainConfig' := chainConfig r in
        logger.raw (chainIdLine chainConfig');;
        logger.newline;;
        ret (Some chainConfig').
End DeployChain.
End DeployChain.

(** ** deployChain.ts, second variant: a role-mapped account list *)

Module DeployChainRoles.

Inductive NodeRole := Validator | BatchPoster.

(** [===] on the two enum members. *)
Definition role_eqb (r1 r2 : NodeRole) : bool :=
  match r1, r2 with
  | Validator, Validator | BatchPoster, BatchPoster => true
  | _, _ => false
  end.

Record NodeAccount := {
    role : NodeRole;
    privateKey : Hex;
    address : Address;
  }.

Record Locals := {
    nodeAccounts : option (list NodeAccount);
    deployRollupHash : option Hash;
    nodeConfigResult : option GenerateNodeConfigurationResult;
  }.

Definition unassigned : Locals :=
    {| nodeAccounts := None; deployRollupHash := None;
       nodeConfigResult := None |}.

  (** We need 2 validators and 1 batch poster for the rollup contracts. *)
Definition roles : list NodeRole := [Validator; Validator; BatchPoster].

Section DeployChainRoles.
  Context {Env : Type} `{!Collaborators Env}.
  Variable runtimeAccount : RuntimeAccount.

  (** The callback of [roles.map]. *)
Definition newAccount (role : NodeRole) : M Env NodeAccount :=
    privateKey ← call generatePrivateKey EvGeneratePrivateKey;
    account ← lift (privateKeyToAccount (sanitizePrivateKey privateKey));
    let address := acc_address account in
    ret {| role := role; privateKey := privateKey; address := address |}.

Definition provisionAccounts (roles : list NodeRole)
    : M Env (list NodeAccount) :=
    mapM newAccount roles.

  (** The loop of case 1. *)
Definition fundAccounts (deployer : PrivateKeyAccount)
      (accounts : list NodeAccount) : M Env unit :=
    forOf accounts (λ account,
      sendTestTokens deployer (address account);; ret ()).

Definition switch (parentChain : Chain) (chainId : Z) (i : nat) (l : Locals)
    : M Env Locals :=
    let deployer := deployer runtimeAccount in
    match i with
    | 0%nat =>
        accounts ← provisionAccounts roles;
        ret {| nodeAccounts := Some accounts;
                deployRollupHash := deployRollupHash l;
                nodeConfigResult := nodeConfigResult l |}
    | 1%nat =>
        accounts ← assigned (nodeAccounts l);
        fundAccounts deployer accounts;;
        ret l
    | 2%nat =>
        accounts ← assigned (nodeAccounts l);
        let validatorAddresses :=
          map address
            (List.filter (λ account, role_eqb (role account) Validator)
                         accounts) in
        accounts' ← assigned (nodeAccounts l);
        batchPosterAddress ←
          match List.find (λ account, role_eqb (role account) BatchPoster)
                          accounts' with
          | Some account => ret (address account)
          | None =>
              throw "TypeError: Cannot read properties of undefined (reading 'address')"
          end;
        deployRollupResult ←
          deployRollupContracts deployer validatorAddresses batchPosterAddress
                                chainId;
        ret {| nodeAccounts := nodeAccounts l;
                deployRollupHash := Some (transaction_hash deployRollupResult);
                nodeConfigResult := nodeConfigResult l |}
    | 3%nat =>
        h ← assigned (deployRollupHash l);
        r ← PrepareNodeConfig.generateNodeConfiguration h parentChain;
        writeNodeConfig r;;
        ret {| nodeAccounts := nodeAccounts l;
                deployRollupHash := deployRollupHash l;
                nodeConfigResult := Some r |}
    | _ => ret l
    end.

Definition stepBody (parentChain : Chain) (chainId : Z) (i : nat)
      (l : Locals) : M Env Locals :=
    logger.step (i + 1) (length steps) (default "" (steps !! i));;
    switch parentChain chainId i l.

Definition runSteps (parentChain : Chain) (chainId : Z) : M Env Locals :=
    forLoop (length steps) 0 (stepBody parentChain chainId) unassigned.

Definition deployChain (parentChain : Chain) : M Env (option ChainConfig) :=
    logger.section "Deploy New Chain";;
    let deployer := deployer runtimeAccount in
    balance ← call (λ e, getBalance e (acc_address deployer))
                   (EvGetBalance (acc_address deployer));
    if balance <? TOKEN_NEEDS_FOR_DEPLOY then
      logger.error
        "Insufficient balance to deploy chain. Please top up the account.";;
      ret None
    else
      randomChainId ← draw generateChainId EvGenerateChainId;
      answers ← call (λ e, prompt e randomChainId) (EvPrompt randomChainId);
      if negb (ans_confirm answers) then
        logger.warn "Chain deployment cancelled.";;
        ret None
      else
        let chainId' := ans_chainId answers in
        logger.newline;;
        logger.info "Starting chain deployment...";;
        l ← runSteps parentChain chainId';
        logger.newline;;
        logger.success "Chain deployed successfully!";;
        logger.newline;;
        r ← assigned (nodeConfigResult l);
        let chainConfig' := chainConfig r in
        logger.raw (chainIdLine chainConfig');;
        logger.newline;;
        ret (Some chainConfig').
End DeployChainRoles.
End DeployChainRoles.

(** ** ConfigDeriver, second pass: the receipt decoder *)

Section ReceiptDecoder.
  (** How one log decodes: [Some (role, address)] for a core-contract-deployed
      event, [None] for any other log. *)
  Variable decodeEvent : Log → option (string * Address).
  (** The contract roles a rollup instance consists of. *)
  Variable requiredRoles : list string.

Definition coreEvents (rc : TransactionReceipt) : list (string * Address) :=
    omap decodeEvent (rc_logs rc).

  (** Modelled from the spec: the SDK's receipt decoder behind
      [txReceipt.getCoreContracts()] is not among the sources; section 4.4 has
      it decode the receipt's emitted event logs to recover the addresses of
      the core contracts as a mapping contract role ↦ address, and fail with
      a decoding error when the logs do not have the expected shape. *)
Definition getCoreContractsSpec (rc : TransactionReceipt)
    : Result CoreContracts :=
    let found : CoreContracts := list_to_map (coreEvents rc) in
    if bool_decide (Forall (λ r, is_Some (found !! r)) requiredRoles)
    then Ok found
    else Thrown "Error: core-contract logs not found in the receipt".

  (** A receipt of a genuine rollup creation: every role is announced, none
      twice. *)
Definition validReceipt (rc : TransactionReceipt) : Prop :=
    NoDup (coreEvents rc).*1 ∧
    Forall (λ r, r ∈ (coreEvents rc).*1) requiredRoles.
End ReceiptDecoder.

(** ** A scripted world

    A concrete implementation of every collaborator: a base chain with a
    transaction store, a key generator that hands out a prepared list of
    keys, an operator with prepared answers.  It serves to run the pipeline
    on concrete inputs. *)

Module Mock.

Record Env := {
    balance : Z;
    entropy : list Hex;
    suggestion : Z;
    operator : Answers;
    (** The chain rejects the transfer with this index, if any. *)
    rejectTransfer : option nat;
    sent : list (Address * Z);
    txs : list (Hash * (Transaction * TransactionReceipt));
    vars : list (string * string);
    files : list (string * string);
  }.

Fixpoint lookup {A} (k : string) (l : list (string * A)) : option A :=
    match l with
    | [] => None
    | (k', a) :: l' => if String.eqb k k' then Some a else lookup k l'
    end.

  (** *** A line-oriented stand-in for ABI and JSON encoding *)

Fixpoint split (sep : ascii) (s : string) : list string :=
    match s with
    | EmptyString => [EmptyString]
    | String c s' =>
        if Ascii.eqb c sep then EmptyString :: split sep s'
        else
          match split sep s' with
          | x :: xs => String c x :: xs
          | [] => [String c EmptyString]
          end
    end.

Fixpoint join (sep : string) (l : list string) : string :=
    match l with
    | [] => ""
    | [x] => x
    | x :: l' => x +:+ sep +:+ join sep l'
    end.

Definition stringifyChainConfig (c : ChainConfig) : string :=
    join ";" [ pretty (chainId c);
               InitialChainOwner (arbitrum c);
               if DataAvailabilityCommittee (arbitrum c) then "1" else "0" ].

Definition parseChainConfig (s : string) : Result ChainConfig :=
    match split ";" s with
    | [i; o; d] =>
        match digits 0 i with
        | Some z =>
            Ok {| chainId := z;
                  arbitrum := {| InitialChainOwner := o;
                                 DataAvailabilityCommittee := String.eqb d "1" |} |}
        | None => Thrown "SyntaxError: Unexpected token in JSON"
        end
    | _ => Thrown "SyntaxError: Unexpected end of JSON input"
    end.

Definition selector : string := "0xcb73d6e2".

Definition encodeCreateRollup (p : CreateRollupParams) : Hex :=
    join "|" [ selector;
               pretty (cfg_chainId (config p));
               cfg_owner (config p);
               pretty (cfg_baseStake (config p));
               cfg_chainConfig (config p);
               cfg_stakeToken (config p);
               join "," (batchPosters p);
               join "," (validators p) ].

Definition decodeCreateRollup (input : Hex)
    : Result (list CreateRollupParams) :=
    match split "|" input with
    | [sel; i; o; b; doc; st; bps; vs] =>
        match bool_decide (sel = selector), digits 0 i, digits 0 b with
        | true, Some iv, Some bv =>
            Ok [ {| config := {| cfg_chainId := iv; cfg_owner := o;
                                 cfg_baseStake := bv; cfg_chainConfig := doc;
                                 cfg_stakeToken := st |};
                    batchPosters := split "," bps;
                    validators := split "," vs |} ]
        | _, _, _ =>
            Thrown "AbiFunctionSignatureNotFoundError: createRollup"
        end
    | _ => Thrown "AbiDecodingDataSizeTooSmallError"
    end.

Definition coreContractDeployed : Hex := "0xCoreContractDeployed".

Definition decodeEvent (l : Log) : option (string * Address) :=
    match log_topics l with
    | [t; r] =>
        if String.eqb t coreContractDeployed then Some (r, log_data l)
        else None
    | _ => None
    end.

Definition requiredRoles : list string :=
    ["rollup"; "inbox"; "outbox"; "bridge"; "sequencerInbox"].

Definition announce (factory : Address) (r : string) : Log :=
    {| log_address := factory;
       log_topics := [coreContractDeployed; r];
       log_data := "0x" +:+ r |}.

Definition factory : Address := "0xfactory".
Definition rollupHash : Hash := "0xc0ffee".

Definition zeroAddress : Address := "0x0000000000000000000000000000000000000000".

#[global] Instance collaborators : Collaborators Env := {|
    generatePrivateKey e :=
      match entropy e with
      | k :: ks =>
          (Ok k,
           {| balance := balance e; entropy := ks; suggestion := suggestion e;
              operator := operator e; rejectTransfer := rejectTransfer e;
              sent := sent e; txs := txs e; vars := vars e;
              files := files e |})
      | [] => (Thrown "Error: no entropy available", e)
      end;
    privateKeyToAccount k := Ok {| acc_address := "addr:" +:+ k |};
    sanitizePrivateKey k := if String.prefix "0x" k then k else "0x" +:+ k;
    generateChainId e := (suggestion e, e);
    getBalance e _ := (Ok (balance e), e);
    sendTransaction e _ to value :=
      if bool_decide (rejectTransfer e = Some (length (sent e)))
      then (Thrown "TransactionExecutionError: insufficient funds", e)
      else
        (Ok ("0xtransfer" +:+ pretty (length (sent e))),
         {| balance := balance e - value; entropy := entropy e;
            suggestion := suggestion e; operator := operator e;
            rejectTransfer := rejectTransfer e;
            sent := sent e ++ [(to, value)]; txs := txs e; vars := vars e;
            files := files e |});
    getTransaction e h :=
      match lookup h (txs e) with
      | Some (tx, _) => (Ok tx, e)
      | None => (Thrown "TransactionNotFoundError", e)
      end;
    getTransactionReceipt e h :=
      match lookup h (txs e) with
      | Some (_, rc) => (Ok rc, e)
      | None => (Thrown "TransactionReceiptNotFoundError", e)
      end;
    prepareChainConfig p :=
      {| chainId := pcc_chainId p; arbitrum := pcc_arbitrum p |};
    createRollupPrepareDeploymentParamsConfig d :=
      Ok {| cfg_chainId := dp_chainId d; cfg_owner := dp_owner d;
            cfg_baseStake := dp_baseStake d;
            cfg_chainConfig := stringifyChainConfig (dp_chainConfig d);
            cfg_stakeToken := zeroAddress |};
    createRollup e p _ :=
      (Ok {| transaction_hash := rollupHash |},
       {| balance := balance e; entropy := entropy e;
          suggestion := suggestion e; operator := operator e;
          rejectTransfer := rejectTransfer e; sent := sent e;
          txs := (rollupHash,
                  ({| tx_hash := rollupHash;
                      tx_input := encodeCreateRollup p |},
                   {| rc_transactionHash := rollupHash;
                      rc_logs := map (announce factory) requiredRoles |}))
                 :: txs e;
          vars := vars e; files := files e |});
    getInputs tx := decodeCreateRollup (tx_input tx);
    getCoreContracts := getCoreContractsSpec decodeEvent requiredRoles;
    prepareNodeConfig p :=
      match batchPosterPrivateKey p, validatorPrivateKey p,
            parentChainRpcUrl p with
      | Some b, Some v, Some url =>
          Ok {| nc_chainName := chainName p;
                nc_chainConfig := p_chainConfig p;
                nc_coreContracts := p_coreContracts p;
                nc_batchPosterPrivateKey := b;
                nc_validatorPrivateKey := v;
                nc_parentChainId := parentChainId p;
                nc_parentChainRpcUrl := url |}
      | _, _, _ =>
          Thrown "TypeError: Cannot read properties of undefined (reading 'startsWith')"
      end;
    JSON_parse := parseChainConfig;
    JSON_stringify nc :=
      join ";" [ nc_chainName nc; stringifyChainConfig (nc_chainConfig nc);
                 nc_batchPosterPrivateKey nc; nc_validatorPrivateKey nc;
                 pretty (nc_parentChainId nc); nc_parentChainRpcUrl nc ];
    processEnv e name := lookup name (vars e);
    writeFile e path content :=
      (Ok (),
       {| balance := balance e; entropy := entropy e;
          suggestion := suggestion e; operator := operator e;
          rejectTransfer := rejectTransfer e; sent := sent e; txs := txs e;
          vars := vars e; files := (path, content) :: files e |});
    prompt e _ := (Ok (operator e), e);
  |}.

(** The scenario of the end-to-end test: chain id 412346, a deployer
    holding 0.005. *)
Definition runtimeAccount : RuntimeAccount :=
    {| deployer := {| acc_address := "0xdeployer" |};
       parentChainPublicClient_chain :=
         {| chain_id := 421614;
            chain_rpcUrls_default_http :=
              ["https://sepolia-rollup.arbitrum.io/rpc"] |} |}.

Definition parentChain : Chain :=
    parentChainPublicClient_chain runtimeAccount.

Definition setup (b : Z) (keys : list Hex) (reject : option nat)
    (store : list (Hash * (Transaction * TransactionReceipt))) : Env :=
  {| balance := b;
     entropy := keys;
     suggestion := 97400766948;
     operator := {| ans_chainId := 412346; ans_confirm := true |};
     rejectTransfer := reject;
     sent := [];
     txs := store;
     vars := [("BATCH_POSTER_PRIVATE_KEY", "0xb0b");
              ("VALIDATOR_PRIVATE_KEY", "0xa11ce")];
     files := [] |}.

Definition keys : list Hex := ["0x01"; "0x02"; "0x03"].

Definition env0 : Env := setup (ether "0.005") keys None [].

Definition world0 : World Env := mkWorld env0 [].

(** A deployer without funds. *)
Definition broke : Env := setup 0 keys None [].

(** A chain that rejects the second transfer. *)
Definition rejecting : Env := setup (ether "0.005") keys (Some 1%nat) [].

(** The accounts provisioned from [keys]. *)
Definition accounts : list DeployChainRoles.NodeAccount :=
  [ {| DeployChainRoles.role := DeployChainRoles.Validator;
       DeployChainRoles.privateKey := "0x01";
       DeployChainRoles.address := "addr:0x01" |};
    {| DeployChainRoles.role := DeployChainRoles.Validator;
       DeployChainRoles.privateKey := "0x02";
       DeployChainRoles.address := "addr:0x02" |};
    {| DeployChainRoles.role := DeployChainRoles.BatchPoster;
       DeployChainRoles.privateKey := "0x03";
       DeployChainRoles.address := "addr:0x03" |} ].

(** The rollup creation of the scenario, and the chain after it. *)
Definition submitted : CreateRollupParams :=
  {| config :=
       {| cfg_chainId := 412346; cfg_owner := "0xdeployer";
          cfg_baseStake := ether "0.00001";
          cfg_chainConfig := "412346;0xdeployer;1";
          cfg_stakeToken := zeroAddress |};
     batchPosters := ["addr:0x03"];
     validators := ["addr:0x01"; "addr:0x02"] |}.

Definition rollupTx : Transaction :=
  {| tx_hash := rollupHash; tx_input := encodeCreateRollup submitted |}.

Definition rollupReceipt : TransactionReceipt :=
  {| rc_transactionHash := rollupHash;
     rc_logs := map (announce factory) requiredRoles |}.

Definition deployed : Env :=
  setup (ether "0.002") [] None [(rollupHash, (rollupTx, rollupReceipt))].

(** The same receipt with its logs in reverse order. *)
Definition reversedReceipt : TransactionReceipt :=
  {| rc_transactionHash := rollupHash;
     rc_logs := reverse (rc_logs rollupReceipt) |}.

(** A transaction that is no rollup creation: a plain token transfer. *)
Definition transferHash : Hash := "0xdead".

Definition transferTx : Transaction :=
  {| tx_hash := transferHash; tx_input := "0xa9059cbb|addr:0x01|1000" |}.

Definition transferReceipt : TransactionReceipt :=
  {| rc_transactionHash := transferHash;
     rc_logs := [ {| log_address := "0xtoken";
                     log_topics := ["0xTransfer"; "0xdeployer"; "addr:0x01"];
                     log_data := "1000" |} ] |}.

Definition stale : Env :=
  setup (ether "0.005") keys None [(transferHash, (transferTx, transferReceipt))].

(** What the deriver assembles in the scenario. *)
Definition coreContracts : CoreContracts :=
  list_to_map (coreEvents decodeEvent rollupReceipt).

Definition theNodeConfig : NodeConfig :=
  {| nc_chainName := "My Orbit Chain";
     nc_chainConfig :=
       {| chainId := 412346;
          arbitrum := {| InitialChainOwner := "0xdeployer";
                         DataAvailabilityCommittee := true |} |};
     nc_coreContracts := coreContracts;
     nc_batchPosterPrivateKey := "0xb0b";
     nc_validatorPrivateKey := "0xa11ce";
     nc_parentChainId := 421614;
     nc_parentChainRpcUrl := "https://sepolia-rollup.arbitrum.io/rpc" |}.
End Mock.

(** ** Vocabulary of the statements *)

Section Vocabulary.
Context {Env : Type} `{!Collaborators Env}.

(** What a run that stops at the balance check leaves behind. *)
Definition refusal (runtimeAccount : RuntimeAccount) (b : Z) : list Event :=
  [ EvLog (log_section "Deploy New Chain");
    EvGetBalance (acc_address (deployer runtimeAccount)) (Ok b);
    EvLog (log_error
      "Insufficient balance to deploy chain. Please top up the account.") ].

(** Address derivation as the provisioning code performs it. *)
Definition derive (k : Hex) : Result PrivateKeyAccount :=
  privateKeyToAccount (sanitizePrivateKey k).

(** The transfer the funding loop requests for one account. *)
Definition due (a : DeployChainRoles.NodeAccount) : Address * Z :=
  (DeployChainRoles.address a, TEST_TOKENS_AMOUNT).

Definition confirmed (r : Result Hash) : Prop := ∃ h, r = Ok h.

(** The two fetches of the deriver, as the run records them. *)
Definition fetched (txHash : Hash) (tx : Transaction)
    (rc : TransactionReceipt) : list Event :=
  [EvGetTransaction txHash (Ok tx); EvGetTransactionReceipt txHash (Ok rc)].

(** Both extraction passes on what was fetched: the first decoded input's
    config with its parsed chain-config document, and the core contracts. *)
Definition bothPasses (tx : Transaction) (rc : TransactionReceipt)
    (txConfig : RollupConfig) (c : ChainConfig) (core : CoreContracts) : Prop :=
  (∃ p inputs, getInputs tx = Ok (p :: inputs) ∧ config p = txConfig) ∧
  JSON_parse (cfg_chainConfig txConfig) = Ok c ∧
  getCoreContracts rc = Ok core.

(** What two runs are compared on: the transfers attempted (recipient, value
    and outcome, in order), the rollup creations submitted (with their
    validator set and batch poster), the files written, and the value
    returned. *)
Definition observable {A} (run : Result A * World Env) :=
  (transfers (trace run.2), deployments (trace run.2), writes (trace run.2),
   returned run.1).
End Vocabulary.

(** ** What a run records, and how its outcome relates to it *)

(** The error of the first collaborator call of a trace that failed. *)
Definition errorOf (e : Event) : option Error :=
  match e with
  | EvGetBalance _ (Thrown err)
  | EvPrompt _ (Thrown err)
  | EvGeneratePrivateKey (Thrown err)
  | EvSendTransaction _ _ _ (Thrown err)
  | EvCreateRollup _ _ (Thrown err)
  | EvGetTransaction _ (Thrown err)
  | EvGetTransactionReceipt _ (Thrown err)
  | EvWriteFile _ _ (Thrown err) => Some err
  | _ => None
  end.

Fixpoint firstFailure (tr : list Event) : option Error :=
  match tr with
  | [] => None
  | e :: tr' =>
      match errorOf e with
      | Some err => Some err
      | None => firstFailure tr'
      end
  end.

(** What a trace records after its first failed call. *)
Fixpoint afterFailure (tr : list Event) : list Event :=
  match tr with
  | [] => []
  | e :: tr' =>
      match errorOf e with
      | Some _ => tr'
      | None => afterFailure tr'
      end
  end.

Definition isLog (e : Event) : Prop :=
  match e with EvLog _ => True | _ => False end.

(** The progress lines [i/n] of a trace. *)
Definition stepOf (e : Event) : option (nat * nat * string) :=
  match e with
  | EvLog (log_step i n m) => Some (i, n, m)
  | _ => None
  end.
Definition stepLines (tr : list Event) := omap stepOf tr.

Definition numbered (l : list string) : list (nat * nat * string) :=
  imap (λ i m, (S i, length l, m)) l.

Definition isKeyDraw (e : Event) : Prop :=
  match e with EvGeneratePrivateKey _ => True | _ => False end.

Definition isFetch (e : Event) : Prop :=
  match e with
  | EvGetTransaction _ _ | EvGetTransactionReceipt _ _ => True
  | _ => False
  end.

(** The operator's answers recorded in a trace. *)
Definition answerOf (e : Event) : option Answers :=
  match e with
  | EvPrompt _ (Ok a) => Some a
  | _ => None
  end.
Definition answers (tr : list Event) := omap answerOf tr.

Definition isBalanceCheck (e : Event) : Prop :=
  match e with EvGetBalance _ _ => True | _ => False end.

(** What a trace records before its first rollup creation. *)
Fixpoint beforeDeployment (tr : list Event) : list Event :=
  match tr with
  | [] => []
  | EvCreateRollup _ _ _ :: _ => []
  | e :: tr' => e :: beforeDeployment tr'
  end.

(** The two variants of deployChain.ts. *)
Inductive Variant := NamedVariables | RoleList.

Section RunShape.
Context {Env : Type} `{!Collaborators Env}.
Variable runtimeAccount : RuntimeAccount.
Variable parentChain : Chain.

Definition deployChainOf (v : Variant) : M Env (option ChainConfig) :=
  match v with
  | NamedVariables => DeployChain.deployChain runtimeAccount parentChain
  | RoleList => DeployChainRoles.deployChain runtimeAccount parentChain
  end.

(** The transfers of [new] are three confirmed transfers of the funding
    amount, to the two validators and then the batch poster of [p], all of
    them recorded before the rollup creation. *)
Definition funded (new : list Event) (p : CreateRollupParams) : Prop :=
  ∃ a1 a2 a3 h1 h2 h3,
    transfers new = [ (a1, TEST_TOKENS_AMOUNT, Ok h1);
                      (a2, TEST_TOKENS_AMOUNT, Ok h2);
                      (a3, TEST_TOKENS_AMOUNT, Ok h3) ] ∧
    transfers (beforeDeployment new) = transfers new ∧
    validators p = [a1; a2] ∧ batchPosters p = [a3].

(** The config of [p] is what the SDK prepares for the chain id the operator
    confirmed, owned by the deployer, with the base stake of the file and a
    chain configuration for the same chain id and owner with the
    data-availability committee switched on. *)
Definition confirmedBy (new : list Event) (p : CreateRollupParams) : Prop :=
  ∃ a, answers new = [a] ∧ ans_confirm a = true ∧
    let owner := acc_address (deployer runtimeAccount) in
    createRollupPrepareDeploymentParamsConfig
      {| dp_chainId := ans_chainId a;
         dp_owner := owner;
         dp_baseStake := BASE_STAKE;
         dp_chainConfig :=
           prepareChainConfig
             {| pcc_chainId := ans_chainId a;
                pcc_arbitrum := {| InitialChainOwner := owner;
                                   DataAvailabilityCommittee := true |} |} |}
      = Ok (config p).

(** [content] renders a node configuration prepared from what the run
    decoded out of the transaction and receipt of the hash its one successful
    rollup creation returned. *)
Definition derivedFrom (new : list Event) (content : string) : Prop :=
  ∃ p res tx rc txConfig c core e nc,
    EvCreateRollup p (acc_address (deployer runtimeAccount)) (Ok res) ∈ new ∧
    fetches new = [transaction_hash res] ∧
    EvGetTransaction (transaction_hash res) (Ok tx) ∈ new ∧
    EvGetTransactionReceipt (transaction_hash res) (Ok rc) ∈ new ∧
    bothPasses tx rc txConfig c core ∧
    prepareNodeConfig
      (PrepareNodeConfig.nodeConfigParameters e c core txConfig parentChain)
      = Ok nc ∧
    content = JSON_stringify nc.

(** [c] is the chain configuration decoded from the input of the
    transaction that the run fetched for the hash its successful rollup
    creation returned, and the run displayed it. *)
Definition decodedFrom (new : list Event) (c : ChainConfig) : Prop :=
  ∃ p res tx rc txConfig core,
    EvCreateRollup p (acc_address (deployer runtimeAccount)) (Ok res) ∈ new ∧
    EvGetTransaction (transaction_hash res) (Ok tx) ∈ new ∧
    EvGetTransactionReceipt (transaction_hash res) (Ok rc) ∈ new ∧
    bothPasses tx rc txConfig c core ∧
    EvLog (log_raw (chainIdLine c)) ∈ new.

(** What every run of deployChain looks like, by its outcome [r] and the
    events [new] it recorded. *)
Definition Shape (r : Result (option ChainConfig)) (new : list Event) : Prop :=
  (∃ b rest,
     new = EvLog (log_section "Deploy New Chain")
           :: EvGetBalance (acc_address (deployer runtimeAccount)) b :: rest ∧
     Forall (λ e, ¬ isBalanceCheck e) rest) ∧
  (∀ err, firstFailure new = Some err → r = Thrown err) ∧
  Forall isLog (afterFailure new) ∧
  (deployments new = [] ∨
   ∃ p, deployments new = [p] ∧ funded new p ∧ confirmedBy new p) ∧
  (writes new = [] ∨
   ∃ content, writes new = [("node-config.json", content)] ∧
              derivedFrom new content) ∧
  (∀ c, r = Ok (Some c) →
     ∃ content, EvWriteFile "node-config.json" content (Ok ()) ∈ new) ∧
  stepLines new `prefix_of` numbered steps ∧
  (∀ c, r = Ok (Some c) → stepLines new = numbered steps) ∧
  (∀ c, r = Ok (Some c) → decodedFrom new c).
End RunShape.

Section Drawn.
Context {Env : Type} `{!Collaborators Env}.
Import DeployChainRoles.

(** The key draw an account comes from. *)
Definition drawOf (a : NodeAccount) : Event :=
  EvGeneratePrivateKey (Ok (privateKey a)).

(** [a] carries the address derived from its own key. *)
Definition selfDerived (a : NodeAccount) : Prop :=
  ∃ account, derive (privateKey a) = Ok account ∧
             address a = acc_address account.
End Drawn.

(** ** The menu around deployChain: src/menu/mainMenu.ts and the
    NodeManager singleton it updates *)

(** src/types/index.ts *)
Inductive NodeType := HONEST | MALICIOUS.
Inductive NodeStatus := STOPPED | STARTING | RUNNING | ERROR.

Record SingleNodeConfig := {
  node_id : string;
  node_name : string;
  node_type : NodeType;
  node_port : Z;
  node_rpcEndpoint : string;
}.

Record NodeInstance := {
  inst_config : SingleNodeConfig;
  inst_status : NodeStatus;
  inst_containerId : option string;
  inst_startedAt : option Z;
  inst_blockHeight : option Z;
}.

(** The fields of the NodeManager singleton. *)
Record NodeManager := {
  nm_nodes : gmap string NodeInstance;
  nm_chainConfig : option ChainConfig;
  nm_nextPort : Z;
}.

Definition setChainConfig (config : ChainConfig) (m : NodeManager)
    : NodeManager :=
  {| nm_nodes := nm_nodes m;
     nm_chainConfig := Some config;
     nm_nextPort := nm_nextPort m |}.

(** The fields of the MainMenu singleton. *)
Record MainMenu := {
  menu_chainConfig : option ChainConfig;
  menu_isRunning : bool;
}.

(** The two singletons the menu handlers mutate. *)
Record App := {
  mainMenu : MainMenu;
  nodeManager : NodeManager;
}.

(** The singletons as the modules construct them. *)
Definition startup : App :=
  {| mainMenu := {| menu_chainConfig := None; menu_isRunning := true |};
     nodeManager := {| nm_nodes := ∅; nm_chainConfig := None;
                       nm_nextPort := 30303 |} |}.

Section Menu.
Context {Env : Type} `{!Collaborators Env}.
Variable runtimeAccount : RuntimeAccount.
(** viem's chain object of that name. *)
Variable arbitrumSepolia : Chain.

(** MainMenu.handleDeployChain, over either variant of deployChain.  The
    singletons outlive an exception, so the handler returns them beside its
    outcome; they are assigned after the awaited call only. *)
Definition handleDeployChain (v : Variant) (s : App) (w : World Env)
    : Result () * App * World Env :=
  let parentChain := arbitrumSepolia in
  match deployChainOf runtimeAccount parentChain v w with
  | (Ok (Some config), w') =>
      (Ok (),
       {| mainMenu := {| menu_chainConfig := Some config;
                         menu_isRunning := menu_isRunning (mainMenu s) |};
          nodeManager := setChainConfig config (nodeManager s) |},
       w')
  | (Ok None, w') => (Ok (), s, w')
  | (Thrown err, w') => (Thrown err, s, w')
  end.
End Menu.

(** An operator who declines, with exactly the required balance. *)
Definition declining : Mock.Env :=
  {| Mock.balance := TOKEN_NEEDS_FOR_DEPLOY;
     Mock.entropy := Mock.keys;
     Mock.suggestion := 97400766948;
     Mock.operator := {| ans_chainId := 412346; ans_confirm := false |};
     Mock.rejectTransfer := None;
     Mock.sent := [];
     Mock.txs := [];
     Mock.vars := [];
     Mock.files := [] |}.

(** * Verification *)

(** ** Running the monad *)

Section Run.
  Context {Env : Type}.
  Implicit Types w : World Env.

Lemma bind_Ok {A B} (m : M Env A) (f : A → M Env B) w a w1 :
    m w = (Ok a, w1) → bind m f w = f a w1.
  Proof. intros H. unfold bind. by rewrite H. Qed.

Lemma bind_Thrown {A B} (m : M Env A) (f : A → M Env B) w e w1 :
    m w = (Thrown e, w1) → bind m f w = (Thrown e, w1).
  Proof. intros H. unfold bind. by rewrite H. Qed.

Lemma bind_Ok_inv {A B} (m : M Env A) (f : A → M Env B) w b w2 :
    bind m f w = (Ok b, w2) →
    ∃ a w1, m w = (Ok a, w1) ∧ f a w1 = (Ok b, w2).
  Proof.
    unfold bind. destruct (m w) as [[a|e] w1]; [eauto | done].
  Qed.

Lemma call_Ok {A} (f : Env → Result A * Env) ev w a e1 :
    f (env w) = (Ok a, e1) →
    call f ev w = (Ok a, mkWorld e1 (trace w ++ [ev (Ok a)])).
  Proof. intros H. unfold call. by rewrite H. Qed.

Lemma call_Thrown {A} (f : Env → Result A * Env) ev w err e1 :
    f (env w) = (Thrown err, e1) →
    call f ev w = (Thrown err, mkWorld e1 (trace w ++ [ev (Thrown err)])).
  Proof. intros H. unfold call. by rewrite H. Qed.

Lemma call_Ok_inv {A} (f : Env → Result A * Env) ev w a w1 :
    call f ev w = (Ok a, w1) →
    ∃ e1, f (env w) = (Ok a, e1) ∧ w1 = mkWorld e1 (trace w ++ [ev (Ok a)]).
  Proof.
    unfold call. destruct (f (env w)) as [[a'|e] e1]; [|done].
    intros [= -> <-]. eauto.
  Qed.
End Run.

Lemma transfers_app tr1 tr2 :
  transfers (tr1 ++ tr2) = transfers tr1 ++ transfers tr2.
Proof. apply omap_app. Qed.

Lemma transfers_cons_send s t v r tr :
  transfers (EvSendTransaction s t v r :: tr) = (t, v, r) :: transfers tr.
Proof. done. Qed.

Lemma deployments_app tr1 tr2 :
  deployments (tr1 ++ tr2) = deployments tr1 ++ deployments tr2.
Proof. apply omap_app. Qed.

Lemma writes_app tr1 tr2 : writes (tr1 ++ tr2) = writes tr1 ++ writes tr2.
Proof. apply omap_app. Qed.

Lemma generatedKeys_app tr1 tr2 :
  generatedKeys (tr1 ++ tr2) = generatedKeys tr1 ++ generatedKeys tr2.
Proof. apply omap_app. Qed.

(** Unfolds the bind and return of [M]. *)
Ltac binds := unfold bind, ret in *.

(** Unfolds the monadic plumbing, leaving the collaborator calls. *)
Ltac plumbing :=
  unfold logger.section, logger.error, logger.warn, logger.info,
    logger.success, logger.step, logger.raw, logger.newline,
    sendTestTokens, writeNodeConfig, assigned, throw, tryCatch, lift,
    ambient, emit, draw, call in *;
  binds;
  cbn [env trace fst snd] in *.

(** Case analysis on a collaborator call, or its known outcome when a
    hypothesis states it. *)
Ltac settle t pat :=
  match goal with
  | H : t = _ |- _ => rewrite H
  | _ => let E := fresh "E" in destruct t as pat eqn:E
  end.

Ltac next_call :=
  match goal with
  | |- context [getBalance ?e ?a] => settle (getBalance e a) ipattern:([[?|?] ?])
  | |- context [generateChainId ?e] => settle (generateChainId e) ipattern:([? ?])
  | |- context [prompt ?e ?d] => settle (prompt e d) ipattern:([[[? ?]|?] ?])
  | |- context [generatePrivateKey ?e] =>
      settle (generatePrivateKey e) ipattern:([[?|?] ?])
  | |- context [privateKeyToAccount ?k] =>
      settle (privateKeyToAccount k) ipattern:([?|?])
  | |- context [sendTransaction ?e ?s ?t ?v] =>
      settle (sendTransaction e s t v) ipattern:([[?|?] ?])
  | |- context [createRollupPrepareDeploymentParamsConfig ?d] =>
      settle (createRollupPrepareDeploymentParamsConfig d) ipattern:([?|?])
  | |- context [createRollup ?e ?p ?a] =>
      settle (createRollup e p a) ipattern:([[?|?] ?])
  | |- context [getTransaction ?e ?h] =>
      settle (getTransaction e h) ipattern:([[?|?] ?])
  | |- context [getTransactionReceipt ?e ?h] =>
      settle (getTransactionReceipt e h) ipattern:([[?|?] ?])
  | |- context [getInputs ?t] => settle (getInputs t) ipattern:([[|? ?]|?])
  | |- context [JSON_parse ?d] => settle (JSON_parse d) ipattern:([?|?])
  | |- context [getCoreContracts ?r] =>
      settle (getCoreContracts r) ipattern:([?|?])
  | |- context [prepareNodeConfig ?p] =>
      settle (prepareNodeConfig p) ipattern:([?|?])
  | |- context [writeFile ?e ?p ?c] =>
      settle (writeFile e p c) ipattern:([[[]|?] ?])
  | |- context [?b <? TOKEN_NEEDS_FOR_DEPLOY] =>
      destruct (b <? TOKEN_NEEDS_FOR_DEPLOY) eqn:?
  | |- context [negb ?b] => destruct b eqn:?
  end;
  cbn; binds; cbn.

(** A run that threw, or returned null, did not return a configuration. *)
Ltac refuted :=
  let H := fresh in
  intros H; apply pair_equal_spec in H as [H _]; discriminate H.

(** Membership in an explicit list. *)
Ltac listed :=
  repeat first [apply list_elem_of_here | apply list_elem_of_further].

(** Brings a trace [((tr ++ [a]) ++ [b]) ++ ...] to the form [tr ++ [a; b; ...]]. *)
Ltac flatten := rewrite <- ?app_assoc; cbn [app].

(** Unfolds the pipeline down to its collaborator calls. *)
Ltac pipeline :=
  unfold DeployChain.deployChain, DeployChain.runSteps, DeployChain.stepBody,
    DeployChain.switch, DeployChainRoles.deployChain,
    DeployChainRoles.runSteps, DeployChainRoles.stepBody,
    DeployChainRoles.switch, DeployChainRoles.provisionAccounts,
    DeployChainRoles.newAccount, DeployChainRoles.fundAccounts,
    DeployChainRoles.roles, deployRollupContracts,
    PrepareNodeConfig.generateNodeConfiguration,
    PrepareNodeConfig.firstConfig in *;
  cbn [forLoop forOf mapM length steps] in *;
  plumbing;
  cbn beta iota zeta delta [env trace fst snd] in *.

Example constants :
  BASE_STAKE = 10 ^ 13 ∧ TEST_TOKENS_AMOUNT = 10 ^ 15 ∧
  TOKEN_NEEDS_FOR_DEPLOY = 4010000000000000.
Proof. by vm_compute. Qed.

(** ** CheckBalance *)

Section CheckBalance.
  Context {Env : Type} `{!Collaborators Env}.
  Variable runtimeAccount : RuntimeAccount.
  Variable parentChain : Chain.

Let deployerAddress := acc_address (deployer runtimeAccount).

  
  (** C1. When the balance check returns less than TOKEN_NEEDS_FOR_DEPLOY,
      deployChain returns null right after the check: the world is the one
      the balance query left, and the run has recorded only the section
      header, the balance query and the error line; no transfer, no
      rollup-creation submission, no file write and no key generation. *)
Theorem deployChain_insufficient_balance (w : World Env) (b : Z) (e1 : Env) :
    getBalance (env w) deployerAddress = (Ok b, e1) →
    b < TOKEN_NEEDS_FOR_DEPLOY →
    DeployChain.deployChain runtimeAccount parentChain w
      = (Ok None, mkWorld e1 (trace w ++ refusal runtimeAccount b)) ∧
    transfers (refusal runtimeAccount b) = [] ∧
    deployments (refusal runtimeAccount b) = [] ∧
    writes (refusal runtimeAccount b) = [] ∧
    generatedKeys (refusal runtimeAccount b) = [].
  Proof.
    intros Hbal Hlt. split; [|done].
    unfold DeployChain.deployChain. plumbing.
    fold deployerAddress. rewrite Hbal.
    apply Z.ltb_lt in Hlt. rewrite Hlt. cbn.
    by rewrite <- !app_assoc.
  Qed.

  (** The role-list variant stops in the same way. *)
Lemma deployChainRoles_insufficient_balance (w : World Env) b e1 :
    getBalance (env w) deployerAddress = (Ok b, e1) →
    b < TOKEN_NEEDS_FOR_DEPLOY →
    DeployChainRoles.deployChain runtimeAccount parentChain w
      = (Ok None, mkWorld e1 (trace w ++ refusal runtimeAccount b)).
  Proof.
    intros Hbal Hlt.
    unfold DeployChainRoles.deployChain. plumbing.
    fold deployerAddress. rewrite Hbal.
    apply Z.ltb_lt in Hlt. rewrite Hlt. cbn.
    by rewrite <- !app_assoc.
  Qed.
End CheckBalance.

(** ** Provision *)

Section Provision.
Context {Env : Type} `{!Collaborators Env}.
Import DeployChainRoles.


Lemma newAccount_Ok (r : NodeRole) (w : World Env) k e1 a :
  generatePrivateKey (env w) = (Ok k, e1) →
  derive k = Ok a →
  newAccount r w
    = (Ok {| role := r; privateKey := k; address := acc_address a |},
       mkWorld e1 (trace w ++ [EvGeneratePrivateKey (Ok k)])).
Proof.
  unfold derive, newAccount. intros Hk Ha. plumbing. by rewrite Hk, Ha.
Qed.

(** C3. For the role list (Validator, Validator, BatchPoster), when the key
    generator delivers three keys and each derives an address, provisioning
    returns exactly three accounts, one per role in the order of the list;
    account number i carries the key of draw number i and the address
    derived from that key.  The three addresses are pairwise distinct as soon
    as the three draws are and derivation does not map two of them to one
    address (the contract of the key-management primitive). *)
Theorem provisionAccounts_three (w : World Env) k1 k2 k3 e1 e2 e3 a1 a2 a3 :
  generatePrivateKey (env w) = (Ok k1, e1) →
  generatePrivateKey e1 = (Ok k2, e2) →
  generatePrivateKey e2 = (Ok k3, e3) →
  derive k1 = Ok a1 → derive k2 = Ok a2 → derive k3 = Ok a3 →
  NoDup [k1; k2; k3] →
  (∀ k k' a a', k ∈ [k1; k2; k3] → k' ∈ [k1; k2; k3] →
     derive k = Ok a → derive k' = Ok a' →
     acc_address a = acc_address a' → k = k') →
  ∃ accounts new,
    provisionAccounts roles w = (Ok accounts, mkWorld e3 (trace w ++ new)) ∧
    accounts = [ {| role := Validator; privateKey := k1;
                    address := acc_address a1 |};
                 {| role := Validator; privateKey := k2;
                    address := acc_address a2 |};
                 {| role := BatchPoster; privateKey := k3;
                    address := acc_address a3 |} ] ∧
    length accounts = 3%nat ∧
    map role accounts = roles ∧
    map privateKey accounts = generatedKeys new ∧
    NoDup (map address accounts).
Proof.
  intros H1 H2 H3 D1 D2 D3 Hkeys Hinj.
  eexists _, [EvGeneratePrivateKey (Ok k1); EvGeneratePrivateKey (Ok k2);
              EvGeneratePrivateKey (Ok k3)].
  split_and!; [|reflexivity..|].
  - unfold provisionAccounts, roles. cbn [mapM].
    erewrite bind_Ok by (apply newAccount_Ok; eauto).
    erewrite bind_Ok; last first.
    { erewrite bind_Ok by (apply newAccount_Ok; cbn; eauto).
      erewrite bind_Ok; last first.
      { erewrite bind_Ok by (apply newAccount_Ok; cbn; eauto).
        reflexivity. }
      reflexivity. }
    cbn. by rewrite <- !app_assoc.
  - cbn. apply NoDup_cons in Hkeys as [Hk1 Hkeys].
    apply NoDup_cons in Hkeys as [Hk2 _].
    assert (∀ k k' a a', k ∈ [k1; k2; k3] → k' ∈ [k1; k2; k3] →
              derive k = Ok a → derive k' = Ok a' → k ≠ k' →
              acc_address a ≠ acc_address a') as Hne by naive_solver.
    repeat constructor; set_unfold.
    + intros [Heq|[Heq|[]]]; revert Heq.
      * eapply (Hne k1 k2); set_solver.
      * eapply (Hne k1 k3); set_solver.
    + intros [Heq|[]]; revert Heq. eapply (Hne k2 k3); set_solver.
    + tauto.
Qed.
End Provision.

(** ** Fund *)

Section Fund.
Context {Env : Type} `{!Collaborators Env}.
Import DeployChainRoles.
Variable deployer : PrivateKeyAccount.


Lemma forOf_app {A} (l1 l2 : list A) (f : A → M Env unit) (w : World Env) :
  forOf (l1 ++ l2) f w = (forOf l1 f;; forOf l2 f) w.
Proof.
  revert w. induction l1 as [|x l1 IH]; intros w; [done|].
  cbn [forOf app]. unfold bind in *.
  destruct (f x w) as [[[]|e] w1]; [apply IH | done].
Qed.

(** A funding loop that completes has made one confirmed transfer per
    account, in the order of the list, and nothing else. *)
Lemma fundAccounts_Ok (accounts : list NodeAccount) (w w1 : World Env) :
  fundAccounts deployer accounts w = (Ok (), w1) →
  ∃ new, trace w1 = trace w ++ new ∧
         length new = length accounts ∧
         (transfers new).*1 = map due accounts ∧
         Forall confirmed (transfers new).*2.
Proof.
  revert w. induction accounts as [|a accounts IH]; intros w.
  - intros [= <-]. exists []. by rewrite app_nil_r.
  - unfold fundAccounts. cbn [forOf]. plumbing.
    destruct (sendTransaction _ _ _ _) as [[h|e] e1]; [|done].
    intros Hrest. apply IH in Hrest as (new & Htr & Hlen & Hdue & Hok).
    cbn in Htr. exists (EvSendTransaction (acc_address deployer) (address a)
                          TEST_TOKENS_AMOUNT (Ok h) :: new).
    split_and!.
    + by rewrite Htr, <- app_assoc.
    + cbn. by rewrite Hlen.
    + rewrite transfers_cons_send, fmap_cons, Hdue. done.
    + rewrite transfers_cons_send, fmap_cons. constructor; [by exists h | done].
Qed.

(** C4. The funding loop sends one transfer per account, in list order, each
    one only after the previous call has returned.  If the transfers to the
    accounts [pre] are confirmed and the next one, to [a], is rejected, then
    the loop over [pre ++ a :: post] throws that error; the run has attempted
    exactly the transfers to [pre] (confirmed) and to [a] (rejected), none to
    [post]; whatever follows the loop ([rest]) is not run; and the world is
    the one the rejected call left, with the confirmed transfers in it and no
    compensating call made. *)
Theorem fundAccounts_stops_at_first_failure
    (pre post : list NodeAccount) (a : NodeAccount) (w w1 : World Env)
    (err : Error) (e2 : Env) {B} (rest : () → M Env B) :
  fundAccounts deployer pre w = (Ok (), w1) →
  sendTransaction (env w1) deployer (address a) TEST_TOKENS_AMOUNT
    = (Thrown err, e2) →
  ∃ new,
    trace w1 = trace w ++ new ∧
    length new = length pre ∧
    (transfers new).*1 = map due pre ∧
    Forall confirmed (transfers new).*2 ∧
    let rejected :=
      EvSendTransaction (acc_address deployer) (address a)
        TEST_TOKENS_AMOUNT (Thrown err) in
    bind (fundAccounts deployer (pre ++ a :: post)) rest w
      = (Thrown err, mkWorld e2 (trace w ++ new ++ [rejected])) ∧
    (transfers (new ++ [rejected])).*1 = map due (pre ++ [a]).
Proof.
  intros Hpre Hfail.
  destruct (fundAccounts_Ok _ _ _ Hpre) as (new & Htr & Hlen & Hdue & Hok).
  exists new. split_and!; try done. cbn zeta. split.
  - apply bind_Thrown. unfold fundAccounts in *. rewrite forOf_app.
    erewrite bind_Ok by done. cbn [forOf]. plumbing.
    rewrite Hfail. by rewrite Htr, <- app_assoc.
  - rewrite transfers_app, fmap_app, Hdue, map_app. done.
Qed.
End Fund.

(** ** DeriveConfig *)

Section DeriveConfig.
Context {Env : Type} `{!Collaborators Env}.
Import PrepareNodeConfig.
Variable txHash : Hash.
Variable parentChain : Chain.


Lemma generateNodeConfiguration_Ok (w : World Env) tx e1 rc e2 txConfig c core nc :
  getTransaction (env w) txHash = (Ok tx, e1) →
  getTransactionReceipt e1 txHash = (Ok rc, e2) →
  bothPasses tx rc txConfig c core →
  prepareNodeConfig (nodeConfigParameters e2 c core txConfig parentChain)
    = Ok nc →
  generateNodeConfiguration txHash parentChain w
    = (Ok {| nodeConfig := nc; chainConfig := c |},
       mkWorld e2 (trace w ++ fetched txHash tx rc)).
Proof.
  intros Htx Hrc ((p & inputs & Hin & <-) & Hc & Hcore) Hnc.
  unfold generateNodeConfiguration, firstConfig. plumbing.
  rewrite Htx. cbn. rewrite Hrc. cbn. rewrite Hin, Hc, Hcore. cbn.
  rewrite Hnc. by rewrite <- app_assoc.
Qed.

Lemma generateNodeConfiguration_Ok_inv (w w' : World Env) r :
  generateNodeConfiguration txHash parentChain w = (Ok r, w') →
  ∃ tx e1 rc e2 txConfig core,
    getTransaction (env w) txHash = (Ok tx, e1) ∧
    getTransactionReceipt e1 txHash = (Ok rc, e2) ∧
    bothPasses tx rc txConfig (chainConfig r) core ∧
    prepareNodeConfig
      (nodeConfigParameters e2 (chainConfig r) core txConfig parentChain)
      = Ok (nodeConfig r) ∧
    w' = mkWorld e2 (trace w ++ fetched txHash tx rc).
Proof.
  unfold generateNodeConfiguration, firstConfig. plumbing.
  destruct (getTransaction _ _) as [[tx|?] e1] eqn:Htx; [|done]. cbn.
  destruct (getTransactionReceipt _ _) as [[rc|?] e2] eqn:Hrc; [|done]. cbn.
  destruct (getInputs tx) as [[|p inputs]|?] eqn:Hin; [done| |done].
  destruct (JSON_parse _) as [c|?] eqn:Hc; [|done].
  destruct (getCoreContracts rc) as [core|?] eqn:Hcore; [|done].
  destruct (prepareNodeConfig _) as [nc|?] eqn:Hnc; [|done].
  intros [= <- <-]. exists tx, e1, rc, e2, (config p), core.
  rewrite <- app_assoc. split_and!; try done. split_and!; eauto.
Qed.

(** The deriver only reads the chain. *)
Lemma generateNodeConfiguration_reads (w : World Env) :
  ∃ new, trace (generateNodeConfiguration txHash parentChain w).2
           = trace w ++ new ∧
         transfers new = [] ∧ deployments new = [] ∧ writes new = [].
Proof.
  unfold generateNodeConfiguration, firstConfig. plumbing.
  destruct (getTransaction _ _) as [[tx|?] e1]; cbn;
    [|by eexists [_]].
  destruct (getTransactionReceipt _ _) as [[rc|?] e2]; cbn;
    [|rewrite <- app_assoc; by eexists [_; _]].
  exists (fetched txHash tx rc). rewrite <- app_assoc. split; [|done].
  destruct (getInputs tx) as [[|p inputs]|?]; [done| |done].
  destruct (JSON_parse _); [|done].
  destruct (getCoreContracts rc); [|done].
  by destruct (prepareNodeConfig _).
Qed.

(** C5. If the transaction fetched for the hash carries, as calldata, the
    encoding of the inputs [p], and the SDK's decoder recovers [p] from that
    encoding, then the first extraction pass reads back the chain-config
    document embedded in [p] itself: whenever generateNodeConfiguration
    returns, its chainConfig is the parse of exactly that document, and it
    does return as soon as the receipt fetch, the parse of that document,
    the receipt pass and prepareNodeConfig succeed. *)
Theorem generateNodeConfiguration_roundtrip
    (encode : CreateRollupParams → Hex) (w : World Env) tx e1
    (p : CreateRollupParams) :
  getTransaction (env w) txHash = (Ok tx, e1) →
  tx_input tx = encode p →
  (∀ tx', tx_input tx' = encode p → getInputs tx' = Ok [p]) →
  (∀ r w', generateNodeConfiguration txHash parentChain w = (Ok r, w') →
     JSON_parse (cfg_chainConfig (config p)) = Ok (chainConfig r)) ∧
  (∀ rc e2 c core nc,
     getTransactionReceipt e1 txHash = (Ok rc, e2) →
     JSON_parse (cfg_chainConfig (config p)) = Ok c →
     getCoreContracts rc = Ok core →
     prepareNodeConfig (nodeConfigParameters e2 c core (config p) parentChain)
       = Ok nc →
     generateNodeConfiguration txHash parentChain w
       = (Ok {| nodeConfig := nc; chainConfig := c |},
          mkWorld e2 (trace w ++ fetched txHash tx rc))).
Proof.
  intros Htx Hin Hcodec. specialize (Hcodec tx Hin). split.
  - intros r w' Hrun.
    apply generateNodeConfiguration_Ok_inv in Hrun
      as (tx' & e1' & rc & e2 & txConfig & core & Htx' & _ & Hboth & _).
    rewrite Htx in Htx'. injection Htx' as <- <-.
    destruct Hboth as ((p' & inputs & Hin' & <-) & Hc & _).
    rewrite Hcodec in Hin'. by injection Hin' as <- <-.
  - intros rc e2 c core nc Hrc Hc Hcore Hnc.
    eapply generateNodeConfiguration_Ok; eauto.
    split_and!; eauto.
Qed.

(** C7. With both fetches answered: a calldata decoding error is the error
    generateNodeConfiguration throws; a receipt decoding error makes it
    throw, and is the error thrown when the calldata pass went through; it
    returns only when both passes and the assembly succeeded, and then every
    part of the result comes from them.  In no case does it write a file. *)
Theorem generateNodeConfiguration_all_or_nothing (w : World Env) tx e1 rc e2 :
  getTransaction (env w) txHash = (Ok tx, e1) →
  getTransactionReceipt e1 txHash = (Ok rc, e2) →
  let run := generateNodeConfiguration txHash parentChain w in
  (∀ err, getInputs tx = Thrown err → run.1 = Thrown err) ∧
  (∀ err, getCoreContracts rc = Thrown err →
     returned run.1 = None ∧
     ∀ p inputs c, getInputs tx = Ok (p :: inputs) →
                   JSON_parse (cfg_chainConfig (config p)) = Ok c →
                   run.1 = Thrown err) ∧
  (∀ r, run.1 = Ok r →
     ∃ txConfig core,
       bothPasses tx rc txConfig (chainConfig r) core ∧
       prepareNodeConfig
         (nodeConfigParameters e2 (chainConfig r) core txConfig parentChain)
         = Ok (nodeConfig r)) ∧
  writes (trace run.2) = writes (trace w).
Proof.
  intros Htx Hrc run. split_and!.
  - intros err Hin. subst run.
    unfold generateNodeConfiguration, firstConfig. plumbing.
    rewrite Htx. cbn. rewrite Hrc. cbn. by rewrite Hin.
  - intros err Hcore. subst run.
    unfold generateNodeConfiguration, firstConfig. plumbing.
    rewrite Htx. cbn. rewrite Hrc. cbn. split.
    + destruct (getInputs tx) as [[|p inputs]|?]; [done| |done].
      destruct (JSON_parse _); [|done]. by rewrite Hcore.
    + intros p inputs c Hin Hc. by rewrite Hin, Hc, Hcore.
  - intros r Hr. destruct run as [o w'] eqn:Hrun. cbn in Hr. subst o.
    apply generateNodeConfiguration_Ok_inv in Hrun
      as (tx' & e1' & rc' & e2' & txConfig & core & Htx' & Hrc' & Hboth
          & Hnc & _).
    rewrite Htx in Htx'. injection Htx' as <- <-.
    rewrite Hrc in Hrc'. injection Hrc' as <- <-. eauto.
  - destruct (generateNodeConfiguration_reads w) as (new & Hnew & _ & _ & Hw).
    subst run. by rewrite Hnew, writes_app, Hw, app_nil_r.
Qed.
End DeriveConfig.

(** ** The receipt decoder under permutation of the logs *)

Section ReceiptOrder.
Variable decodeEvent : Log → option (string * Address).
Variable requiredRoles : list string.

Lemma coreEvents_Permutation (rc rc' : TransactionReceipt) :
  rc_logs rc' ≡ₚ rc_logs rc →
  coreEvents decodeEvent rc' ≡ₚ coreEvents decodeEvent rc.
Proof. unfold coreEvents. by intros ->. Qed.

(** C6. For a receipt [rc] that announces every required role exactly once,
    and any receipt [rc'] whose core-contract-deployed events are a
    permutation of those of [rc], the decoder returns for both the same
    mapping; that mapping has an address for every required role, and maps a
    role to an address exactly when the receipt announces that pair. *)
Theorem getCoreContracts_permutation_invariant (rc rc' : TransactionReceipt) :
  validReceipt decodeEvent requiredRoles rc →
  coreEvents decodeEvent rc' ≡ₚ coreEvents decodeEvent rc →
  ∃ m : CoreContracts,
    getCoreContractsSpec decodeEvent requiredRoles rc = Ok m ∧
    getCoreContractsSpec decodeEvent requiredRoles rc' = Ok m ∧
    Forall (λ r, is_Some (m !! r)) requiredRoles ∧
    ∀ r a, m !! r = Some a ↔ (r, a) ∈ coreEvents decodeEvent rc.
Proof.
  intros [Hnodup Hall] Hperm.
  set (m := list_to_map (coreEvents decodeEvent rc) : CoreContracts).
  assert (list_to_map (coreEvents decodeEvent rc') = m) as Hm'.
  { symmetry. by apply list_to_map_proper. }
  assert (∀ r a, m !! r = Some a ↔ (r, a) ∈ coreEvents decodeEvent rc)
    as Hlabel.
  { intros r a. symmetry. by apply elem_of_list_to_map. }
  assert (Forall (λ r, is_Some (m !! r)) requiredRoles) as Hcomplete.
  { eapply Forall_impl; [exact Hall|]. intros r Hr. cbn in Hr.
    apply list_elem_of_fmap in Hr as ([r' a] & -> & Hin).
    exists a. by apply Hlabel. }
  exists m. unfold getCoreContractsSpec. rewrite Hm'. fold m.
  by rewrite bool_decide_eq_true_2.
Qed.
End ReceiptOrder.

(** ** The whole pipeline *)

Arguments ether : simpl never.

Section EndToEnd.
Context {Env : Type} `{!Collaborators Env}.
Import PrepareNodeConfig.
Variable runtimeAccount : RuntimeAccount.
Variable parentChain : Chain.

Let dep := deployer runtimeAccount.
Let owner := acc_address dep.

Variables e0 e1 e2 e3 e4 e5 e6 e7 e8 e9 e10 e11 e12 e13 : Env.
Variable suggested : Z.
Variables k1 k2 k3 : Hex.
Variables a1 a2 a3 : PrivateKeyAccount.
Variables h1 h2 h3 : Hash.
Variable cfg : RollupConfig.
Variable res : CreateRollupResults.
Variable tx : Transaction.
Variable rc : TransactionReceipt.
Variable core : CoreContracts.
Variable nc : NodeConfig.

Let theChainConfig : ChainConfig :=
  prepareChainConfig
    {| pcc_chainId := 412346;
       pcc_arbitrum := {| InitialChainOwner := owner;
                          DataAvailabilityCommittee := true |} |}.

Let submitted : CreateRollupParams :=
  {| config := cfg;
     batchPosters := [acc_address a3];
     validators := [acc_address a1; acc_address a2] |}.

Hypothesis balance_is_0_005 : getBalance e0 owner = (Ok (ether "0.005"), e1).
Hypothesis chain_id_suggested : generateChainId e1 = (suggested, e2).
Hypothesis operator_picks_412346 :
  prompt e2 suggested
    = (Ok {| ans_chainId := 412346; ans_confirm := true |}, e3).
Hypothesis key1 : generatePrivateKey e3 = (Ok k1, e4).
Hypothesis key2 : generatePrivateKey e4 = (Ok k2, e5).
Hypothesis key3 : generatePrivateKey e5 = (Ok k3, e6).
Hypothesis address1 : derive k1 = Ok a1.
Hypothesis address2 : derive k2 = Ok a2.
Hypothesis address3 : derive k3 = Ok a3.
Hypothesis transfer1 :
  sendTransaction e6 dep (acc_address a1) (ether "0.001") = (Ok h1, e7).
Hypothesis transfer2 :
  sendTransaction e7 dep (acc_address a2) (ether "0.001") = (Ok h2, e8).
Hypothesis transfer3 :
  sendTransaction e8 dep (acc_address a3) (ether "0.001") = (Ok h3, e9).
Hypothesis params_prepared :
  createRollupPrepareDeploymentParamsConfig
    {| dp_chainId := 412346; dp_owner := owner;
       dp_baseStake := ether "0.00001";
       dp_chainConfig := theChainConfig |} = Ok cfg.
Hypothesis rollup_created : createRollup e9 submitted dep = (Ok res, e10).
Hypothesis tx_fetched :
  getTransaction e10 (transaction_hash res) = (Ok tx, e11).
Hypothesis receipt_fetched :
  getTransactionReceipt e11 (transaction_hash res) = (Ok rc, e12).
Hypothesis calldata_decoded : getInputs tx = Ok [submitted].
Hypothesis document_parsed : JSON_parse (cfg_chainConfig cfg) = Ok theChainConfig.
Hypothesis chain_id_kept : chainId theChainConfig = 412346.
Hypothesis core_decoded : getCoreContracts rc = Ok core.
Hypothesis node_config_prepared :
  prepareNodeConfig (nodeConfigParameters e12 theChainConfig core cfg parentChain)
    = Ok nc.
Hypothesis artifact_written :
  writeFile e12 "node-config.json" (JSON_stringify nc) = (Ok (), e13).

(** C8. Chain id 412346, a deployer balance of 0.005, a base stake of
    0.00001 and 0.001 per account, every collaborator call succeeding: the
    run draws exactly three keys, makes exactly three transfers of 0.001, to
    the three derived addresses in order, submits exactly one rollup
    creation (validators: the first two addresses, batch poster: the third),
    writes one file, and returns a chain configuration whose chainId is
    412346. *)
Theorem deployChain_end_to_end :
  ∃ c tr,
    DeployChain.deployChain runtimeAccount parentChain (mkWorld e0 [])
      = (Ok (Some c), mkWorld e13 tr) ∧
    chainId c = 412346 ∧
    generatedKeys tr = [k1; k2; k3] ∧
    transfers tr = [ (acc_address a1, ether "0.001", Ok h1);
                     (acc_address a2, ether "0.001", Ok h2);
                     (acc_address a3, ether "0.001", Ok h3) ] ∧
    deployments tr = [submitted] ∧
    writes tr = [("node-config.json", JSON_stringify nc)].
Proof.
  assert ((ether "0.005" <? TOKEN_NEEDS_FOR_DEPLOY) = false) as Henough
    by (vm_compute; reflexivity).
  exists theChainConfig. eexists. split; [|split; [exact chain_id_kept|]].
  - pipeline.
    unfold derive, TEST_TOKENS_AMOUNT, BASE_STAKE in *.
    unfold theChainConfig, submitted, owner, dep in *.
    next_call. rewrite Henough. cbn.
    repeat next_call. reflexivity.
  - by split_and!.
Qed.
End EndToEnd.

(** ** Where the operator keys of the node configuration come from *)

Section ConfigKeys.
Context {Env : Type} `{!Collaborators Env}.
Import PrepareNodeConfig.
Variable runtimeAccount : RuntimeAccount.
Variable parentChain : Chain.

(** C9, as the code has it.  In every run of deployChain that returns a
    chain configuration, the node configuration is built once: the run made
    one rollup creation, looked up again the transaction of the hash that
    creation returned (once), and wrote one file, the rendering of the node
    configuration.  That configuration is prepareNodeConfig applied to the
    parameters assembled from the chain configuration and core contracts
    decoded from the fetched transaction and receipt, and from the two
    operator keys found in the process environment under
    BATCH_POSTER_PRIVATE_KEY and VALIDATOR_PRIVATE_KEY. *)
Theorem deployChain_config_keys_from_environment (w w' : World Env) c :
  DeployChain.deployChain runtimeAccount parentChain w = (Ok (Some c), w') →
  ∃ new p res tx rc txConfig core nc e,
    trace w' = trace w ++ new ∧
    deployments new = [p] ∧
    EvCreateRollup p (acc_address (deployer runtimeAccount)) (Ok res) ∈ new ∧
    fetches new = [transaction_hash res] ∧
    EvGetTransaction (transaction_hash res) (Ok tx) ∈ new ∧
    EvGetTransactionReceipt (transaction_hash res) (Ok rc) ∈ new ∧
    bothPasses tx rc txConfig c core ∧
    let params := nodeConfigParameters e c core txConfig parentChain in
    prepareNodeConfig params = Ok nc ∧
    batchPosterPrivateKey params = processEnv e "BATCH_POSTER_PRIVATE_KEY" ∧
    validatorPrivateKey params = processEnv e "VALIDATOR_PRIVATE_KEY" ∧
    writes new = [("node-config.json", JSON_stringify nc)].
Proof.
  intros Hrun. revert Hrun. pipeline.
  repeat (next_call; try refuted).
  intros Hrun. apply pair_equal_spec in Hrun as [[= <-] <-].
  cbn [env trace]. flatten.
  eexists _, _, _, _, _, _, _, _, _.
  split; [reflexivity|]. split; [reflexivity|].
  split; [listed|]. split; [reflexivity|].
  split; [listed|]. split; [listed|].
  split; [by split_and!; eauto|].
  cbn zeta. by split_and!.
Qed.
End ConfigKeys.

(** ** The two variants of deployChain *)

Section Variants.
Context {Env : Type} `{!Collaborators Env}.
Variable runtimeAccount : RuntimeAccount.
Variable parentChain : Chain.


(** C10. From any world, the variant with individually named variables and
    the variant with the role-mapped account list make the same transfers in
    the same order, submit the same rollup-creation parameters, write the
    same file and return the same chain configuration (or both return
    nothing). *)
Theorem deployChain_variants_equivalent (w : World Env) :
  observable (DeployChain.deployChain runtimeAccount parentChain w)
  = observable (DeployChainRoles.deployChain runtimeAccount parentChain w).
Proof.
  unfold observable. pipeline.
  repeat next_call.
  all: cbn [env trace fst snd returned]; flatten.
  all: rewrite !transfers_app, !deployments_app, !writes_app.
  all: reflexivity.
Qed.
End Variants.

(** ** The statements at work in the scripted world *)

(** The balance check at work: a deployer with balance 0. *)
Lemma deployChain_insufficient_balance_witness :
  DeployChain.deployChain Mock.runtimeAccount Mock.parentChain
      (mkWorld Mock.broke [])
    = (Ok None, mkWorld Mock.broke ([] ++ refusal Mock.runtimeAccount 0)) ∧
  transfers (refusal Mock.runtimeAccount 0) = [] ∧
  deployments (refusal Mock.runtimeAccount 0) = [] ∧
  writes (refusal Mock.runtimeAccount 0) = [] ∧
  generatedKeys (refusal Mock.runtimeAccount 0) = [].
Proof.
  apply (deployChain_insufficient_balance Mock.runtimeAccount Mock.parentChain
           (mkWorld Mock.broke []) 0 Mock.broke); [reflexivity | done].
Defined.

(** C2, as stated, fails: the scripted run funds three accounts, and the
    threshold is not the base stake plus three funding amounts. *)
Lemma funding_requirement_is_not_three_units :
  length (transfers (trace (DeployChain.deployChain Mock.runtimeAccount
                              Mock.parentChain Mock.world0).2)) = 3%nat ∧
  TOKEN_NEEDS_FOR_DEPLOY ≠ BASE_STAKE + TEST_TOKENS_AMOUNT * 3.
Proof. split; [by vm_compute | by vm_compute]. Qed.

(** C2, as the code has it.  The threshold is the base stake plus four
    funding amounts: one for each of the three roles that get an account
    (two validators, one batch poster) and one for the deployer. *)
Theorem funding_requirement_four_units :
  TOKEN_NEEDS_FOR_DEPLOY
    = BASE_STAKE
      + TEST_TOKENS_AMOUNT * (Z.of_nat (length DeployChainRoles.roles) + 1) ∧
  length DeployChainRoles.roles = 3%nat ∧
  BASE_STAKE = 10 ^ 13 ∧
  TEST_TOKENS_AMOUNT = 10 ^ 15.
Proof. by vm_compute. Qed.

(** Provisioning at work: the keys 0x01, 0x02, 0x03. *)
Lemma provisionAccounts_three_witness :
  ∃ accounts new,
    DeployChainRoles.provisionAccounts DeployChainRoles.roles Mock.world0
      = (Ok accounts,
         mkWorld (Mock.setup (ether "0.005") [] None [])
                 (trace Mock.world0 ++ new)) ∧
    accounts = Mock.accounts ∧
    length accounts = 3%nat ∧
    map DeployChainRoles.role accounts = DeployChainRoles.roles ∧
    map DeployChainRoles.privateKey accounts = generatedKeys new ∧
    NoDup (map DeployChainRoles.address accounts).
Proof.
  apply (provisionAccounts_three Mock.world0 "0x01" "0x02" "0x03"
           (Mock.setup (ether "0.005") ["0x02"; "0x03"] None [])
           (Mock.setup (ether "0.005") ["0x03"] None [])
           (Mock.setup (ether "0.005") [] None [])
           {| acc_address := "addr:0x01" |} {| acc_address := "addr:0x02" |}
           {| acc_address := "addr:0x03" |}); try reflexivity.
  - apply (bool_decide_unpack _). by vm_compute.
  - intros k k' a a' Hk Hk' Ha Ha' Heq.
    apply list_elem_of_In in Hk. apply list_elem_of_In in Hk'.
    cbn in Hk, Hk'.
    destruct Hk as [<-|[<-|[<-|[]]]], Hk' as [<-|[<-|[<-|[]]]];
      injection Ha as Ea; injection Ha' as Ea'; subst a a';
      first [reflexivity | discriminate Heq].
Defined.

(** Funding at work: the chain rejects the second of three transfers. *)
Lemma fundAccounts_stops_at_first_failure_witness :
  let dep := deployer Mock.runtimeAccount in
  let a1 := {| DeployChainRoles.role := DeployChainRoles.Validator;
               DeployChainRoles.privateKey := "0x01";
               DeployChainRoles.address := "addr:0x01" |} in
  let a2 := {| DeployChainRoles.role := DeployChainRoles.Validator;
               DeployChainRoles.privateKey := "0x02";
               DeployChainRoles.address := "addr:0x02" |} in
  let a3 := {| DeployChainRoles.role := DeployChainRoles.BatchPoster;
               DeployChainRoles.privateKey := "0x03";
               DeployChainRoles.address := "addr:0x03" |} in
  let w := mkWorld Mock.rejecting [] in
  let w1 := (DeployChainRoles.fundAccounts dep [a1] w).2 in
  let err := "TransactionExecutionError: insufficient funds" in
  ∃ new,
    trace w1 = trace w ++ new ∧
    length new = length [a1] ∧
    (transfers new).*1 = map due [a1] ∧
    Forall confirmed (transfers new).*2 ∧
    let rejected :=
      EvSendTransaction (acc_address dep) (DeployChainRoles.address a2)
        TEST_TOKENS_AMOUNT (Thrown err) in
    bind (DeployChainRoles.fundAccounts dep ([a1] ++ a2 :: [a3]))
         (λ _, logger.info "not reached") w
      = (Thrown err, mkWorld (env w1) (trace w ++ new ++ [rejected])) ∧
    (transfers (new ++ [rejected])).*1 = map due ([a1] ++ [a2]).
Proof.
  intros dep a1 a2 a3 w w1 err.
  apply (fundAccounts_stops_at_first_failure dep [a1] [a3] a2 w w1 err
           (env w1) (λ _, logger.info "not reached")); reflexivity.
Defined.

(** The calldata round trip at work: the rollup-creation transaction of the
    scripted chain. *)
Lemma generateNodeConfiguration_roundtrip_witness :
  let w := mkWorld Mock.deployed [] in
  (∀ r w',
     PrepareNodeConfig.generateNodeConfiguration Mock.rollupHash
       Mock.parentChain w = (Ok r, w') →
     JSON_parse (cfg_chainConfig (config Mock.submitted))
       = Ok (chainConfig r)) ∧
  (∀ rc e2 c core nc,
     getTransactionReceipt Mock.deployed Mock.rollupHash = (Ok rc, e2) →
     JSON_parse (cfg_chainConfig (config Mock.submitted)) = Ok c →
     getCoreContracts rc = Ok core →
     prepareNodeConfig
       (PrepareNodeConfig.nodeConfigParameters e2 c core
          (config Mock.submitted) Mock.parentChain) = Ok nc →
     PrepareNodeConfig.generateNodeConfiguration Mock.rollupHash
       Mock.parentChain w
       = (Ok {| nodeConfig := nc; chainConfig := c |},
          mkWorld e2 (trace w ++ fetched Mock.rollupHash Mock.rollupTx rc))).
Proof.
  intros w.
  apply (generateNodeConfiguration_roundtrip Mock.rollupHash Mock.parentChain
           Mock.encodeCreateRollup w Mock.rollupTx Mock.deployed
           Mock.submitted); [reflexivity | reflexivity |].
  intros tx' Hin. change (getInputs tx') with
    (Mock.decodeCreateRollup (tx_input tx')).
  rewrite Hin. by vm_compute.
Defined.

(** Order independence at work: the receipt of the scripted rollup creation and the same
    receipt with its logs reversed. *)
Lemma getCoreContracts_permutation_invariant_witness :
  ∃ m : CoreContracts,
    getCoreContractsSpec Mock.decodeEvent Mock.requiredRoles
      Mock.rollupReceipt = Ok m ∧
    getCoreContractsSpec Mock.decodeEvent Mock.requiredRoles
      Mock.reversedReceipt = Ok m ∧
    Forall (λ r, is_Some (m !! r)) Mock.requiredRoles ∧
    ∀ r a, m !! r = Some a
           ↔ (r, a) ∈ coreEvents Mock.decodeEvent Mock.rollupReceipt.
Proof.
  apply (getCoreContracts_permutation_invariant Mock.decodeEvent
           Mock.requiredRoles Mock.rollupReceipt Mock.reversedReceipt).
  - split; apply (bool_decide_unpack _); by vm_compute.
  - apply coreEvents_Permutation. cbn [rc_logs Mock.reversedReceipt].
    apply reverse_Permutation.
Defined.

(** Decoding failure at work: a hash whose transaction is a plain token
    transfer. *)
Lemma generateNodeConfiguration_all_or_nothing_witness :
  let run := PrepareNodeConfig.generateNodeConfiguration Mock.transferHash
               Mock.parentChain (mkWorld Mock.stale []) in
  (∀ err, getInputs Mock.transferTx = Thrown err → run.1 = Thrown err) ∧
  (∀ err, getCoreContracts Mock.transferReceipt = Thrown err →
     returned run.1 = None ∧
     ∀ p inputs c, getInputs Mock.transferTx = Ok (p :: inputs) →
                   JSON_parse (cfg_chainConfig (config p)) = Ok c →
                   run.1 = Thrown err) ∧
  (∀ r, run.1 = Ok r →
     ∃ txConfig core,
       bothPasses Mock.transferTx Mock.transferReceipt txConfig
         (chainConfig r) core ∧
       prepareNodeConfig
         (PrepareNodeConfig.nodeConfigParameters Mock.stale (chainConfig r)
            core txConfig Mock.parentChain)
         = Ok (nodeConfig r)) ∧
  writes (trace run.2) = writes (trace (mkWorld Mock.stale [])).
Proof.
  apply (generateNodeConfiguration_all_or_nothing Mock.transferHash
           Mock.parentChain (mkWorld Mock.stale []) Mock.transferTx
           Mock.stale Mock.transferReceipt Mock.stale); reflexivity.
Defined.

(** On that hash the deriver throws the calldata decoding error. *)
Example generateNodeConfiguration_rejects_a_transfer :
  (PrepareNodeConfig.generateNodeConfiguration Mock.transferHash
     Mock.parentChain (mkWorld Mock.stale [])).1
  = Thrown "AbiDecodingDataSizeTooSmallError".
Proof. by vm_compute. Qed.


(** The end-to-end scenario at work in the scripted world. *)
Lemma deployChain_end_to_end_witness :
  ∃ c tr,
    DeployChain.deployChain Mock.runtimeAccount Mock.parentChain
        (mkWorld Mock.env0 [])
      = (Ok (Some c),
         mkWorld (DeployChain.deployChain Mock.runtimeAccount
                    Mock.parentChain Mock.world0).2.(env) tr) ∧
    chainId c = 412346 ∧
    generatedKeys tr = ["0x01"; "0x02"; "0x03"] ∧
    transfers tr = [ ("addr:0x01", ether "0.001", Ok "0xtransfer0");
                     ("addr:0x02", ether "0.001", Ok "0xtransfer1");
                     ("addr:0x03", ether "0.001", Ok "0xtransfer2") ] ∧
    deployments tr = [Mock.submitted] ∧
    writes tr = [("node-config.json", JSON_stringify Mock.theNodeConfig)].
Proof.
  pose (dep := deployer Mock.runtimeAccount).
  pose (e6 := Mock.setup (ether "0.005") [] None []).
  pose (e7 := (sendTransaction e6 dep "addr:0x01" (ether "0.001")).2).
  pose (e8 := (sendTransaction e7 dep "addr:0x02" (ether "0.001")).2).
  pose (e9 := (sendTransaction e8 dep "addr:0x03" (ether "0.001")).2).
  pose (e10 := (createRollup e9 Mock.submitted dep).2).
  pose (e13 := (writeFile e10 "node-config.json"
                  (JSON_stringify Mock.theNodeConfig)).2).
  apply (deployChain_end_to_end Mock.runtimeAccount Mock.parentChain
            Mock.env0 Mock.env0 Mock.env0 Mock.env0
            (Mock.setup (ether "0.005") ["0x02"; "0x03"] None [])
            (Mock.setup (ether "0.005") ["0x03"] None [])
            e6 e7 e8 e9 e10 e10 e10 e13
            97400766948 "0x01" "0x02" "0x03"
            {| acc_address := "addr:0x01" |} {| acc_address := "addr:0x02" |}
            {| acc_address := "addr:0x03" |}
            "0xtransfer0" "0xtransfer1" "0xtransfer2"
            (config Mock.submitted)
            {| transaction_hash := Mock.rollupHash |}
            Mock.rollupTx Mock.rollupReceipt Mock.coreContracts Mock.theNodeConfig).
  all: by vm_compute.
Defined.

(** C9, as stated, fails: in the scripted run the keys generated for the
    two validators and the batch poster are 0x01, 0x02 and 0x03, and the
    node configuration carries the keys 0xb0b and 0xa11ce of the process
    environment. *)
Lemma config_keys_are_not_the_provisioned_ones :
  ∃ l w' r,
    DeployChain.runSteps Mock.runtimeAccount Mock.parentChain 412346
      Mock.world0 = (Ok l, w') ∧
    DeployChain.validatorKeys1 l = Some "0x01" ∧
    DeployChain.validatorKeys2 l = Some "0x02" ∧
    DeployChain.batchPosterKeys l = Some "0x03" ∧
    (transfers (trace w')).*1.*1 = ["addr:0x01"; "addr:0x02"; "addr:0x03"] ∧
    DeployChain.nodeConfigResult l = Some r ∧
    nc_batchPosterPrivateKey (nodeConfig r) = "0xb0b" ∧
    nc_validatorPrivateKey (nodeConfig r) = "0xa11ce" ∧
    Some (nc_batchPosterPrivateKey (nodeConfig r))
      ≠ DeployChain.batchPosterKeys l ∧
    Some (nc_validatorPrivateKey (nodeConfig r))
      ≠ DeployChain.validatorKeys1 l ∧
    Some (nc_validatorPrivateKey (nodeConfig r))
      ≠ DeployChain.validatorKeys2 l.
Proof.
  eexists _, _, _. split; [by vm_compute|]. by vm_compute.
Qed.

(** The source of the operator keys at work: the scripted run. *)
Lemma deployChain_config_keys_from_environment_witness :
  let w := Mock.world0 in
  let run := DeployChain.deployChain Mock.runtimeAccount Mock.parentChain w in
  let c := {| chainId := 412346;
              arbitrum := {| InitialChainOwner := "0xdeployer";
                             DataAvailabilityCommittee := true |} |} in
  ∃ new p res tx rc txConfig core nc e,
    trace run.2 = trace w ++ new ∧
    deployments new = [p] ∧
    EvCreateRollup p (acc_address (deployer Mock.runtimeAccount)) (Ok res)
      ∈ new ∧
    fetches new = [transaction_hash res] ∧
    EvGetTransaction (transaction_hash res) (Ok tx) ∈ new ∧
    EvGetTransactionReceipt (transaction_hash res) (Ok rc) ∈ new ∧
    bothPasses tx rc txConfig c core ∧
    let params :=
      PrepareNodeConfig.nodeConfigParameters e c core txConfig
        Mock.parentChain in
    prepareNodeConfig params = Ok nc ∧
    batchPosterPrivateKey params = processEnv e "BATCH_POSTER_PRIVATE_KEY" ∧
    validatorPrivateKey params = processEnv e "VALIDATOR_PRIVATE_KEY" ∧
    writes new = [("node-config.json", JSON_stringify nc)].
Proof.
  intros w run c.
  apply (deployChain_config_keys_from_environment Mock.runtimeAccount
           Mock.parentChain w run.2 c).
  by vm_compute.
Defined.

(** ** Every run of deployChain, in both variants *)

Section Runs.
Context {Env : Type} `{!Collaborators Env}.
Variable runtimeAccount : RuntimeAccount.
Variable parentChain : Chain.

Ltac shape_leaf :=
  let H := fresh in
  intros H; apply pair_equal_spec in H as [<- <-];
  cbn [trace]; flatten; eexists; (split; [reflexivity|]);
  unfold Shape;
  (split; [eexists _, _; split;
             [reflexivity | repeat constructor; by intros []] |]);
  (split; [cbn; by intros ? [= <-] |]);
  (split; [cbn; repeat constructor |]);
  (split; [cbn; first [by left | right; eexists; split_and!;
             [reflexivity | by eexists _, _, _, _, _, _
             | eexists; split_and!; [reflexivity | reflexivity | eassumption]]] |]);
  (split; [cbn; first [by left | right; eexists; split; [reflexivity|];
             eexists _, _, _, _, _, _, _, _, _;
             split_and!; [listed | reflexivity | listed | listed
                         | split_and!; eauto | eassumption
                         | reflexivity]] |]);
  (split; [intros ?; first [by intros [=] | intros _; eexists; listed] |]);
  (split; [cbn; by eexists |]);
  (split; [intros ?; first [by intros [=] | done] |]);
  (intros ?; first [by intros [=]
    | intros [= <-]; eexists _, _, _, _, _, _;
      split_and!; [listed | listed | listed | split_and!; eauto | listed]]).

Lemma deployChain_shape (w : World Env) r w' :
  DeployChain.deployChain runtimeAccount parentChain w = (r, w') →
  ∃ new, trace w' = trace w ++ new ∧ Shape runtimeAccount parentChain r new.
Proof. pipeline. repeat next_call. all: shape_leaf. Qed.

Lemma deployChainRoles_shape (w : World Env) r w' :
  DeployChainRoles.deployChain runtimeAccount parentChain w = (r, w') →
  ∃ new, trace w' = trace w ++ new ∧ Shape runtimeAccount parentChain r new.
Proof. pipeline. repeat next_call. all: shape_leaf. Qed.

Lemma deployChainOf_shape (v : Variant) (w : World Env) :
  ∃ new,
    trace (deployChainOf runtimeAccount parentChain v w).2 = trace w ++ new ∧
    Shape runtimeAccount parentChain
      (deployChainOf runtimeAccount parentChain v w).1 new.
Proof.
  destruct (deployChainOf _ _ v w) as [r w'] eqn:Hrun.
  destruct v; [by apply deployChain_shape | by apply deployChainRoles_shape].
Qed.

(** X1. In both variants and whatever the collaborators do, a run starts
    with the section header and the balance query for the deployer's
    address, and never asks for a balance again: the balance is checked once,
    before any other collaborator call. *)
Theorem deployChain_checks_balance_first_and_once (v : Variant)
    (w : World Env) :
  ∃ b rest,
    trace (deployChainOf runtimeAccount parentChain v w).2
      = trace w ++ EvLog (log_section "Deploy New Chain")
                   :: EvGetBalance (acc_address (deployer runtimeAccount)) b
                   :: rest ∧
    Forall (λ e, ¬ isBalanceCheck e) rest.
Proof.
  destruct (deployChainOf_shape v w)
    as (new & Htrace & (b & rest & -> & Hrest) & _).
  by exists b, rest.
Qed.

(** X2. In both variants and whatever the collaborators do, the error of
    the first collaborator call that fails is the error deployChain throws,
    and after that call the run does nothing but log. *)
Theorem deployChain_throws_the_first_failure (v : Variant) (w : World Env) :
  ∃ new,
    trace (deployChainOf runtimeAccount parentChain v w).2 = trace w ++ new ∧
    (∀ err, firstFailure new = Some err → (deployChainOf runtimeAccount parentChain v w).1 = Thrown err) ∧
    Forall isLog (afterFailure new).
Proof.
  destruct (deployChainOf_shape v w)
    as (new & ? & _ & ? & ? & _).
  by exists new.
Qed.

(** X3. In both variants and whatever the collaborators do, a run submits
    at most one rollup creation, and only after exactly three confirmed
    transfers of the funding amount: to the two validators, in the order of
    the submitted validator set, and then to the submitted batch poster.  The
    run makes no other transfer, before or after. *)
Theorem deployChain_deploys_after_funding (v : Variant) (w : World Env) :
  ∃ new,
    trace (deployChainOf runtimeAccount parentChain v w).2 = trace w ++ new ∧
    (deployments new = [] ∨ ∃ p, deployments new = [p] ∧ funded new p).
Proof.
  destruct (deployChainOf_shape v w)
    as (new & ? & _ & _ & _ & [?|(p & ? & ? & _)] & _);
    exists new; eauto.
Qed.

(** X4. In both variants, the config of a submitted rollup creation is the
    one the SDK prepares for the chain id of the operator's single, confirmed
    answer (not the suggested id), with the deployer as owner and as initial
    chain owner, the base stake 0.00001 and the data-availability committee
    switched on. *)
Theorem deployChain_deploys_what_was_confirmed (v : Variant) (w : World Env) :
  ∃ new,
    trace (deployChainOf runtimeAccount parentChain v w).2 = trace w ++ new ∧
    ∀ p, p ∈ deployments new → confirmedBy runtimeAccount new p.
Proof.
  destruct (deployChainOf_shape v w)
    as (new & ? & _ & _ & _ & [Hd|(p & Hd & _ & ?)] & _);
    exists new; (split; [done|]); rewrite Hd; intros p' Hp'.
  - by apply elem_of_nil in Hp'.
  - by apply list_elem_of_singleton in Hp' as ->.
Qed.

(** X5. In both variants and whatever the collaborators do, a run writes at
    most one file, node-config.json, and its content renders the node
    configuration prepared from the transaction and receipt fetched for the
    hash that the run's successful rollup creation returned; a run that
    returns a chain configuration has written that file successfully. *)
Theorem deployChain_writes_after_deriving (v : Variant) (w : World Env) :
  ∃ new,
    trace (deployChainOf runtimeAccount parentChain v w).2 = trace w ++ new ∧
    (writes new = [] ∨
     ∃ content, writes new = [("node-config.json", content)] ∧
                derivedFrom runtimeAccount parentChain new content) ∧
    (∀ c, (deployChainOf runtimeAccount parentChain v w).1 = Ok (Some c) →
       ∃ content, EvWriteFile "node-config.json" content (Ok ()) ∈ new).
Proof.
  destruct (deployChainOf_shape v w)
    as (new & ? & _ & _ & _ & _ & ? & ? & _).
  by exists new.
Qed.

(** X6. In both variants, the progress lines of a run are an initial part
    of the four lines [1/4] .. [4/4] with the step messages in order, and all
    four when the run returns a chain configuration. *)
Theorem deployChain_progress_lines (v : Variant) (w : World Env) :
  ∃ new,
    trace (deployChainOf runtimeAccount parentChain v w).2 = trace w ++ new ∧
    stepLines new `prefix_of` numbered steps ∧
    (∀ c, (deployChainOf runtimeAccount parentChain v w).1 = Ok (Some c) → stepLines new = numbered steps).
Proof.
  destruct (deployChainOf_shape v w)
    as (new & ? & _ & _ & _ & _ & _ & _ & ? & ? & _).
  by exists new.
Qed.


(** X8. In both variants: when the balance is at least the threshold
    (equality included) and the operator declines the confirmation question,
    deployChain returns null after the warning line; no key is generated, no
    transfer made, no rollup creation submitted and no file written. *)
Theorem deployChain_cancelled (v : Variant) (w : World Env)
    b e1 suggested e2 z e3 :
  getBalance (env w) (acc_address (deployer runtimeAccount)) = (Ok b, e1) →
  TOKEN_NEEDS_FOR_DEPLOY ≤ b →
  generateChainId e1 = (suggested, e2) →
  prompt e2 suggested
    = (Ok {| ans_chainId := z; ans_confirm := false |}, e3) →
  deployChainOf runtimeAccount parentChain v w
    = (Ok None,
       mkWorld e3
         (trace w ++
          [ EvLog (log_section "Deploy New Chain");
            EvGetBalance (acc_address (deployer runtimeAccount)) (Ok b);
            EvGenerateChainId suggested;
            EvPrompt suggested
              (Ok {| ans_chainId := z; ans_confirm := false |});
            EvLog (log_warn "Chain deployment cancelled.") ])).
Proof.
  intros Hbal Hge Hid Hans. apply Z.ltb_ge in Hge.
  destruct v; cbn [deployChainOf]; pipeline;
    rewrite Hbal; cbn; rewrite Hge; cbn;
    rewrite Hid; cbn; rewrite Hans; cbn; by flatten.
Qed.
End Runs.

(** ** The provisioning and funding loops on arbitrary lists *)

Section Loops.
Context {Env : Type} `{!Collaborators Env}.
Import DeployChainRoles.

(** X9. For every list of roles: when provisioning returns, it returns one
    account per role, in the order of the list; the run recorded exactly one
    key draw per account, in the same order, and each account carries the key
    of its draw and the address derived from that key. *)
Theorem provisionAccounts_any_roles (roles : list NodeRole)
    (w w' : World Env) (accounts : list NodeAccount) :
  provisionAccounts roles w = (Ok accounts, w') →
  map role accounts = roles ∧
  trace w' = trace w ++ map drawOf accounts ∧
  Forall selfDerived accounts.
Proof.
  revert w w' accounts. induction roles as [|r roles IH]; intros w w' accounts.
  - intros [= <- <-]. by rewrite app_nil_r.
  - unfold provisionAccounts in *. cbn [mapM].
    unfold newAccount. plumbing.
    destruct (generatePrivateKey (env w)) as [[k|?] e1]; [|done].
    destruct (privateKeyToAccount (sanitizePrivateKey k)) as [a|?] eqn:Ha;
      [|done].
    destruct (mapM _ roles _) as [[rest|?] w1] eqn:Hrest; [|done].
    intros [= <- <-].
    apply IH in Hrest as (Hroles & Htrace & Hall). cbn in Htrace.
    split_and!.
    + cbn. by rewrite Hroles.
    + rewrite Htrace. cbn. by rewrite <- app_assoc.
    + constructor; [by exists a | done].
Qed.

(** X10. For every list of roles and whatever the key generator does,
    provisioning touches the outside world through key draws only, at most
    one per role: it makes no transfer, no rollup creation, no fetch and no
    file write, also when it throws. *)
Theorem provisionAccounts_only_draws_keys (roles : list NodeRole)
    (w : World Env) :
  ∃ new,
    trace (provisionAccounts roles w).2 = trace w ++ new ∧
    Forall isKeyDraw new ∧
    (length new ≤ length roles)%nat.
Proof.
  revert w. induction roles as [|r roles IH]; intros w.
  - exists []. by rewrite app_nil_r.
  - unfold provisionAccounts in *. cbn [mapM].
    unfold newAccount. plumbing.
    destruct (generatePrivateKey (env w)) as [[k|?] e1]; cbn;
      [|eexists [_]; split_and!; [done|by repeat constructor|cbn; lia]].
    destruct (privateKeyToAccount (sanitizePrivateKey k)) as [a|?]; cbn;
      [|eexists [_]; split_and!; [done|by repeat constructor|cbn; lia]].
    specialize (IH (mkWorld e1 (trace w ++ [EvGeneratePrivateKey (Ok k)]))).
    destruct IH as (new & Htrace & Hall & Hlen).
    destruct (mapM _ roles _) as [[rest|?] w1]; cbn in *;
      (exists (EvGeneratePrivateKey (Ok k) :: new);
       split_and!; [by rewrite Htrace, <- app_assoc
                   | by constructor | cbn; lia]).
Qed.

(** X11. For every account list and whatever the chain does, the funding loop
    only sends transfers, from the deployer: the transfers it attempts are,
    in order, the transfers due to an initial part of the list, and it
    records nothing else. *)
Theorem fundAccounts_attempts_a_prefix (deployer : PrivateKeyAccount)
    (accounts : list NodeAccount) (w : World Env) :
  ∃ new,
    trace (fundAccounts deployer accounts w).2 = trace w ++ new ∧
    (transfers new).*1 `prefix_of` map due accounts ∧
    length (transfers new) = length new ∧
    Forall (λ e, ∃ to v r,
              e = EvSendTransaction (acc_address deployer) to v r) new.
Proof.
  revert w. induction accounts as [|a accounts IH]; intros w.
  - exists []. rewrite app_nil_r. by split_and!.
  - unfold fundAccounts in *. cbn [forOf]. plumbing.
    destruct (sendTransaction _ _ _ _) as [[h|err] e1]; cbn.
    + match goal with |- context [forOf accounts ?f ?w0] =>
        destruct (IH w0) as (new & Htrace & Hpre & Hlen & Hall) end.
      cbn in Htrace.
      exists (EvSendTransaction (acc_address deployer) (address a)
                TEST_TOKENS_AMOUNT (Ok h) :: new).
      split_and!.
      * by rewrite Htrace, <- app_assoc.
      * rewrite transfers_cons_send, fmap_cons. cbn [fst map].
        by apply prefix_cons.
      * rewrite transfers_cons_send. cbn. by rewrite Hlen.
      * constructor; [by eexists _, _, _ | done].
    + eexists [_]. split_and!; [done | | done | ].
      * rewrite transfers_cons_send. cbn. apply prefix_cons, prefix_nil.
      * constructor; [by eexists _, _, _ | done].
Qed.
End Loops.

(** ** The fetches of the deriver *)

Section Fetch.
Context {Env : Type} `{!Collaborators Env}.

(** X12. Whatever the chain answers, generateNodeConfiguration asks it for
    the transaction and then for the receipt of the same hash, each at most
    once and nothing else: it stops with the lookup error when the
    transaction lookup fails (the receipt is then never requested) or when
    the receipt lookup fails. *)
Theorem generateNodeConfiguration_fetches_in_order (txHash : Hash)
    (parentChain : Chain) (w : World Env) :
  ∃ r w' new,
    PrepareNodeConfig.generateNodeConfiguration txHash parentChain w
      = (r, w') ∧
    trace w' = trace w ++ new ∧
    ((∃ err, new = [EvGetTransaction txHash (Thrown err)] ∧
             r = Thrown err) ∨
     (∃ tx err, new = [ EvGetTransaction txHash (Ok tx);
                        EvGetTransactionReceipt txHash (Thrown err) ] ∧
                r = Thrown err) ∨
     (∃ tx rc, new = fetched txHash tx rc)).
Proof.
  pipeline.
  destruct (getTransaction _ _) as [[tx|err] e1]; cbn.
  - destruct (getTransactionReceipt _ _) as [[rc|err] e2]; cbn.
    + destruct (getInputs tx) as [[|p inputs]|?]; cbn;
        [| destruct (JSON_parse _); cbn;
           [destruct (getCoreContracts rc); cbn;
            [destruct (prepareNodeConfig _); cbn|]|] |].
      all: eexists _, _, (fetched txHash tx rc).
      all: split_and!; [reflexivity | by flatten | by eauto 10].
    + eexists _, _, _. split_and!; [reflexivity | by flatten |].
      right. left. by eexists _, _.
  - eexists _, _, _. split_and!; [reflexivity | done |]. left. by eexists.
Qed.
End Fetch.

(** ** The menu's deploy handler *)

Section MenuRuns.
Context {Env : Type} `{!Collaborators Env}.
Variable runtimeAccount : RuntimeAccount.
Variable arbitrumSepolia : Chain.

(** X13. Whatever the collaborators do, the menu's deploy handler changes
    the application state only by recording a chain configuration, the same
    one in the menu and in the node manager, and only after a run that
    submitted a rollup creation and wrote node-config.json successfully; a
    run in which a collaborator call failed leaves the state as it was and
    the handler throws that call's error. *)
Theorem handleDeployChain_records_completed_deployments (v : Variant)
    (s : App) (w : World Env) :
  ∃ r s' w' new,
    handleDeployChain runtimeAccount arbitrumSepolia v s w = (r, s', w') ∧
    trace w' = trace w ++ new ∧
    (s' = s ∨
     ∃ c p content,
       deployChainOf runtimeAccount arbitrumSepolia v w = (Ok (Some c), w') ∧
       r = Ok () ∧
       s' = {| mainMenu :=
                 {| menu_chainConfig := Some c;
                    menu_isRunning := menu_isRunning (mainMenu s) |};
               nodeManager :=
                 {| nm_nodes := nm_nodes (nodeManager s);
                    nm_chainConfig := Some c;
                    nm_nextPort := nm_nextPort (nodeManager s) |} |} ∧
       deployments new = [p] ∧
       EvWriteFile "node-config.json" content (Ok ()) ∈ new) ∧
    (∀ err, firstFailure new = Some err → r = Thrown err ∧ s' = s).
Proof.
  unfold handleDeployChain.
  destruct (deployChainOf_shape runtimeAccount arbitrumSepolia v w)
    as (new & Htrace & _ & Hfail & _ & Hdep & Hwr & Hret & _).
  destruct (deployChainOf _ _ v w) as [[[c|]|err] w'] eqn:Hrun;
    cbn [fst snd] in *.
  - eexists _, _, _, new. split_and!; [done..| |].
    + right. destruct (Hret c eq_refl) as (content & Hin).
      destruct Hwr as [Hnone|(content' & Hone & Hfrom)].
      { assert (("node-config.json", content) ∈ writes new) as Hw
          by (apply list_elem_of_omap; eauto).
        rewrite Hnone in Hw. by apply elem_of_nil in Hw. }
      destruct Hdep as [Hd|(p & Hd & _)].
      { destruct Hfrom as (p & res & ? & ? & ? & ? & ? & ? & ? & Hp & _).
        assert (p ∈ deployments new) as Hp'
          by (apply list_elem_of_omap; eauto).
        rewrite Hd in Hp'. by apply elem_of_nil in Hp'. }
      by exists c, p, content.
    + intros err Herr. by specialize (Hfail err Herr).
  - eexists _, _, _, new. split_and!; [done..|by left|].
    intros err Herr. by specialize (Hfail err Herr).
  - eexists _, _, _, new. split_and!; [done..|by left|].
    intros err' Herr. specialize (Hfail err' Herr). by simplify_eq.
Qed.
End MenuRuns.

(** ** More of the scripted world *)

(** Cancellation at work: the operator declines, the balance is exactly the
    threshold. *)
Lemma deployChain_cancelled_witness :
  deployChainOf Mock.runtimeAccount Mock.parentChain RoleList
      (mkWorld declining [])
    = (Ok None,
       mkWorld declining
         ([] ++
          [ EvLog (log_section "Deploy New Chain");
            EvGetBalance "0xdeployer" (Ok TOKEN_NEEDS_FOR_DEPLOY);
            EvGenerateChainId 97400766948;
            EvPrompt 97400766948
              (Ok {| ans_chainId := 412346; ans_confirm := false |});
            EvLog (log_warn "Chain deployment cancelled.") ])).
Proof.
  apply (deployChain_cancelled Mock.runtimeAccount Mock.parentChain RoleList
           (mkWorld declining []) TOKEN_NEEDS_FOR_DEPLOY declining
           97400766948 declining 412346 declining);
    [reflexivity | apply Z.le_refl | reflexivity | reflexivity].
Defined.

(** Provisioning at work on another role list: a batch poster, then a
    validator. *)
Lemma provisionAccounts_any_roles_witness :
  let accounts :=
    [ {| DeployChainRoles.role := DeployChainRoles.BatchPoster;
         DeployChainRoles.privateKey := "0x01";
         DeployChainRoles.address := "addr:0x01" |};
      {| DeployChainRoles.role := DeployChainRoles.Validator;
         DeployChainRoles.privateKey := "0x02";
         DeployChainRoles.address := "addr:0x02" |} ] in
  map DeployChainRoles.role accounts
    = [DeployChainRoles.BatchPoster; DeployChainRoles.Validator] ∧
  trace (mkWorld (Mock.setup (ether "0.005") ["0x03"] None [])
           (map drawOf accounts))
    = trace Mock.world0 ++ map drawOf accounts ∧
  Forall selfDerived accounts.
Proof.
  cbv zeta.
  apply (provisionAccounts_any_roles
           [DeployChainRoles.BatchPoster; DeployChainRoles.Validator]
           Mock.world0).
  reflexivity.
Defined.
